(** * meshery-octarine: the manifest apply engine, verified

    A shallow embedding of [octarine/octarine.go] (package [octarine]):
    the four resource verbs with their namespace fallback
    ([createResource], [getResource], [updateResource], [deleteResource]),
    the document resolver and dispatcher ([executeManifest]), the decoder
    front end ([applyManifestPayload]), the per-document loop
    ([applyConfigChange]) and the event reader ([StreamEvents]).

    Conventions.
    - A Go [string] or [[]byte] is a [string]: a sequence of bytes.
    - A Go [error] is its message ([err.Error()]); a function returning
      [error] returns [option error], [None] being [nil].
    - The cluster behind [k8sDynamicClient] is an abstract state with the
      four verbs of [dynamic.ResourceInterface]; every call is recorded,
      with its reply, in a log kept next to the client.
    - A run-time panic is an outcome of its own, distinct from a returned
      error.
    - [logrus] output is not modelled. *)

From Stdlib Require Import ZArith String Ascii List Lia Bool Permutation.
From stdpp Require Import base gmap strings list.
Import ListNotations.

Set Warnings "-register-all".
Local Open Scope string_scope.
Local Open Scope list_scope.

(** ** Package [strings] of the Go standard library

    The functions below are the byte-level behaviour of Go's [strings]
    package.  [TrimSpace] and [ToLower] are given on ASCII text, where Go
    trims exactly tab, line feed, vertical tab, form feed, carriage return
    and space, and lowers exactly [A]..[Z]. *)

(** [s[:n]] *)
Fixpoint slice_to (n : nat) (s : string) : string :=
  match n, s with
  | S n', String c s' => String c (slice_to n' s')
  | _, _ => EmptyString
  end.

(** [s[n:]] *)
Fixpoint slice_from (n : nat) (s : string) : string :=
  match n, s with
  | S n', String _ s' => slice_from n' s'
  | _, _ => s
  end.

(** [strings.HasPrefix(s, prefix)] *)
Fixpoint HasPrefix (s prefix : string) {struct prefix} : bool :=
  match prefix, s with
  | EmptyString, _ => true
  | String p prefix', String c s' => Ascii.eqb c p && HasPrefix s' prefix'
  | String _ _, EmptyString => false
  end.

(** [strings.HasSuffix(s, suffix)]:
    [len(s) >= len(suffix) && s[len(s)-len(suffix):] == suffix] *)
Definition HasSuffix (s suffix : string) : bool :=
  (String.length suffix <=? String.length s)%nat &&
  String.eqb (slice_from (String.length s - String.length suffix) s) suffix.

(** [strings.Index(s, substr)]; [None] stands for -1. *)
Fixpoint Index (s substr : string) : option nat :=
  if HasPrefix s substr then Some O
  else match s with
       | EmptyString => None
       | String _ s' => option_map S (Index s' substr)
       end.

(** The loop of [genSplit] and of [Count]: cut at the leftmost separator
    and go on behind it.  [n] bounds the number of cuts. *)
Fixpoint genSplit (n : nat) (s sep : string) : list string :=
  match n with
  | O => [s]
  | S n' =>
      match Index s sep with
      | None => [s]
      | Some m => slice_to m s :: genSplit n' (slice_from (m + String.length sep) s) sep
      end
  end.

Fixpoint genCount (n : nat) (s sep : string) : nat :=
  match n with
  | O => O
  | S n' =>
      match Index s sep with
      | None => O
      | Some m => S (genCount n' (slice_from (m + String.length sep) s) sep)
      end
  end.

Definition explode (s : string) : list string :=
  List.map (fun c => String c EmptyString) (list_ascii_of_string s).

(** [strings.Split(s, sep)].  Go bounds the loop by [Count(s, sep)]; a
    separator that is not empty occurs at most [len(s)] times, so the loop
    stops at the first [Index] that fails. *)
Definition Split (s sep : string) : list string :=
  match sep with
  | EmptyString => explode s
  | _ => genSplit (String.length s) s sep
  end.

(** [strings.Count(s, substr)] *)
Definition Count (s substr : string) : nat :=
  match substr with
  | EmptyString => S (String.length s)
  | _ => genCount (String.length s) s substr
  end.

(** [strings.Join(elems, sep)] *)
Fixpoint Join (elems : list string) (sep : string) : string :=
  match elems with
  | [] => EmptyString
  | [e] => e
  | e :: rest => e +:+ sep +:+ Join rest sep
  end.

Definition isSpace (c : ascii) : bool :=
  match nat_of_ascii c with
  | 9 | 10 | 11 | 12 | 13 | 32 => true
  | _ => false
  end.

Fixpoint TrimLeftSpace (s : string) : string :=
  match s with
  | EmptyString => EmptyString
  | String c s' => if isSpace c then TrimLeftSpace s' else s
  end.

Fixpoint TrimRightSpace (s : string) : string :=
  match s with
  | EmptyString => EmptyString
  | String c s' =>
      match TrimRightSpace s' with
      | EmptyString => if isSpace c then EmptyString else String c EmptyString
      | t => String c t
      end
  end.


(** [strings.TrimSpace(s)] *)
Definition TrimSpace (s : string) : string := TrimRightSpace (TrimLeftSpace s).

Definition lowerByte (c : ascii) : ascii :=
  let n := nat_of_ascii c in
  if (65 <=? n)%nat && (n <=? 90)%nat then ascii_of_nat (n + 32) else c.

(** [strings.ToLower(s)] *)
Fixpoint ToLower (s : string) : string :=
  match s with
  | EmptyString => EmptyString
  | String c s' => String (lowerByte c) (ToLower s')
  end.

(** The test [strings.TrimSpace(yml) != ""] of [applyConfigChange]. *)
Definition nonBlank (yml : string) : bool := negb (String.eqb (TrimSpace yml) "").


(** ** Package [errors] ([github.com/pkg/errors]) *)

Definition error : Type := string.

(** [errors.New(message)] *)
Definition errors_New (message : string) : error := message.

(** [errors.Wrapf(err, message)]: the message of the result is
    [message + ": " + err.Error()]. *)
Definition Wrapf (err : error) (message : string) : error :=
  message +:+ ": " +:+ err.

(** ** Unstructured documents ([k8s.io/apimachinery], package [unstructured])

    [map[string]interface{}] as decoded from JSON: the values of the map
    are [nil], [bool], [int64], [float64] (kept as its bit pattern),
    [string], [[]interface{}] and nested maps.  A [nil] map and an empty
    map read alike. *)

Inductive value : Type :=
| VNull
| VBool (b : bool)
| VInt (n : Z)
| VFloat (bits : Z)
| VString (s : string)
| VList (l : list value)
| VMap (m : gmap string value).

Record Unstructured : Type := mkUnstructured { Object : gmap string value }.

Definition UnstructuredContent (u : Unstructured) : gmap string value := Object u.

Definition SetUnstructuredContent (content : gmap string value) (u : Unstructured)
  : Unstructured := {| Object := content |}.

(** [NestedFieldNoCopy]: walk down [fields]; [None] when a field is
    missing or a value on the way is not a map. *)
Fixpoint NestedFieldNoCopy (val : value) (fields : list string) : option value :=
  match fields with
  | [] => Some val
  | field :: rest =>
      match val with
      | VMap m =>
          match m !! field with
          | Some v => NestedFieldNoCopy v rest
          | None => None
          end
      | _ => None
      end
  end.

(** [getNestedString]: the string at the path, the empty string in every other case. *)
Definition getNestedString (obj : gmap string value) (fields : list string) : string :=
  match NestedFieldNoCopy (VMap obj) fields with
  | Some (VString s) => s
  | _ => EmptyString
  end.

Definition GetAPIVersion (u : Unstructured) : string := getNestedString (Object u) ["apiVersion"].
Definition GetKind (u : Unstructured) : string := getNestedString (Object u) ["kind"].
Definition GetNamespace (u : Unstructured) : string :=
  getNestedString (Object u) ["metadata"; "namespace"].
Definition GetName (u : Unstructured) : string :=
  getNestedString (Object u) ["metadata"; "name"].

(** [setNestedFieldNoCopy] along the path [field :: fields]: missing maps
    on the way are created; [None] (an error, which every caller here
    drops) when a value on the way is not a map. *)
Fixpoint setNestedFieldNoCopy (obj : gmap string value) (v : value)
    (field : string) (fields : list string) : option (gmap string value) :=
  match fields with
  | [] => Some (<[field := v]> obj)
  | next :: rest =>
      match obj !! field with
      | Some (VMap m) =>
          option_map (fun m' => <[field := VMap m']> obj) (setNestedFieldNoCopy m v next rest)
      | Some _ => None
      | None =>
          option_map (fun m' => <[field := VMap m']> obj) (setNestedFieldNoCopy ∅ v next rest)
      end
  end.

(** [RemoveNestedField(obj, "metadata", "namespace")] *)
Definition removeNamespaceField (obj : gmap string value) : gmap string value :=
  match obj !! "metadata" with
  | Some (VMap m) => <["metadata" := VMap (delete "namespace" m)]> obj
  | _ => obj
  end.

(** [SetNamespace], a method of [Unstructured] *)
Definition SetNamespace (namespace : string) (u : Unstructured) : Unstructured :=
  match namespace with
  | EmptyString => {| Object := removeNamespaceField (Object u) |}
  | _ =>
      match setNestedFieldNoCopy (Object u) (VString namespace) "metadata" ["namespace"] with
      | Some obj => {| Object := obj |}
      | None => u
      end
  end.

(** [IsList], a method of [Unstructured] *)
Definition IsList (u : Unstructured) : bool :=
  match Object u !! "items" with
  | Some (VList _) => true
  | _ => false
  end.

(** ** Resource coordinates and the dynamic client *)

(** [schema.GroupVersionResource] *)
Record GroupVersionResource : Type := mkGVR {
  Group : string;
  Version : string;
  Resource : string
}.

(** [Resource(res).Namespace(ns)] as against [Resource(res)] alone. *)
Inductive Scope : Type :=
| Namespaced (ns : string)
| Unscoped.

Inductive DeletionPropagation : Type :=
| DeletePropagationOrphan
| DeletePropagationBackground
| DeletePropagationForeground.

(** [metav1.DeleteOptions], the one field the code sets. *)
Record DeleteOptions : Type := mkDeleteOptions {
  PropagationPolicy : option DeletionPropagation
}.

(** The four verbs of [dynamic.ResourceInterface] that the adapter uses,
    as transitions of the cluster state. *)
Class DynamicInterface (Store : Type) : Type := {
  dynCreate : GroupVersionResource -> Scope -> Unstructured -> Store ->
              (Unstructured + error) * Store;
  dynGet : GroupVersionResource -> Scope -> string -> Store ->
           (Unstructured + error) * Store;
  dynUpdate : GroupVersionResource -> Scope -> Unstructured -> Store ->
              (Unstructured + error) * Store;
  dynDelete : GroupVersionResource -> Scope -> string -> DeleteOptions -> Store ->
              option error * Store
}.

(** One call on the dynamic client, with what it was given and what came
    back. *)
Inductive StoreCall : Type :=
| CallCreate (res : GroupVersionResource) (sc : Scope) (data : Unstructured)
             (reply : Unstructured + error)
| CallGet (res : GroupVersionResource) (sc : Scope) (name : string)
          (reply : Unstructured + error)
| CallUpdate (res : GroupVersionResource) (sc : Scope) (data : Unstructured)
             (reply : Unstructured + error)
| CallDelete (res : GroupVersionResource) (sc : Scope) (name : string)
             (opts : DeleteOptions) (reply : option error).

Definition isCreate (c : StoreCall) : bool :=
  match c with CallCreate _ _ _ _ => true | _ => false end.
Definition isGet (c : StoreCall) : bool :=
  match c with CallGet _ _ _ _ => true | _ => false end.
Definition isUpdate (c : StoreCall) : bool :=
  match c with CallUpdate _ _ _ _ => true | _ => false end.
Definition isDelete (c : StoreCall) : bool :=
  match c with CallDelete _ _ _ _ _ => true | _ => false end.

(** Did the call come back without an error? *)
Definition succeeded (c : StoreCall) : bool :=
  match c with
  | CallCreate _ _ _ (inl _) | CallGet _ _ _ (inl _) | CallUpdate _ _ _ (inl _)
  | CallDelete _ _ _ _ None => true
  | _ => false
  end.

(** The error a call came back with, if it did. *)
Definition failure (c : StoreCall) : option error :=
  match c with
  | CallCreate _ _ _ (inr e) | CallGet _ _ _ (inr e) | CallUpdate _ _ _ (inr e)
  | CallDelete _ _ _ _ (Some e) => Some e
  | _ => None
  end.

(** [meshes.EventsResponse] *)
Inductive EventType : Type := EventType_INFO | EventType_WARN | EventType_ERROR.

Record EventsResponse : Type := mkEvent {
  EventType_of : EventType;
  Summary : string;
  Details : string
}.

(** ** The client and the apply engine *)

(** How a Go call ends: it returns, or it panics. *)
Inductive Outcome (A : Type) : Type :=
| Returns (a : A)
| Panics (msg : string).
Arguments Returns {A} a.
Arguments Panics {A} msg.

Section Client.

Context {Store : Type} `{DynamicInterface Store}.

(** [YAMLToJSON] of [github.com/ghodss/yaml] and the method
    [UnmarshalJSON] of [Unstructured], taken as they come. *)
Variable YAMLToJSON : string -> string + error.
Variable UnmarshalJSON : string -> Unstructured + error.

(** [OctarineClient]: the fields the engine reads and writes.
    [k8sDynamicClient] is [None] until [CreateMeshInstance] has run;
    [eventChan] is the buffer of the channel, oldest event first. *)
Record OctarineClient : Type := mkClient {
  k8sDynamicClient : option Store;
  eventChan : list EventsResponse
}.

(** The client together with the calls it has made, oldest first. *)
Record World : Type := mkWorld {
  oClient : OctarineClient;
  calls : list StoreCall
}.

Definition Go (A : Type) : Type := World -> Outcome A * World.

Definition ret {A : Type} (a : A) : Go A := fun w => (Returns a, w).

Definition bind {A B : Type} (m : Go A) (k : A -> Go B) : Go B :=
  fun w =>
    match m w with
    | (Returns a, w') => k a w'
    | (Panics msg, w') => (Panics msg, w')
    end.

Definition panic {A : Type} (msg : string) : Go A := fun w => (Panics msg, w).

Local Notation "'call' x <- m ;; k" := (bind m (fun x => k))
  (at level 10, x name, m at level 99, k at level 200).

(** [oClient.k8sDynamicClient == nil] *)
Definition clientIsNil : Go bool :=
  fun w =>
    (Returns (match k8sDynamicClient (oClient w) with None => true | Some _ => false end),
     w).

(** The world after a call: the cluster has moved and the call is in
    the log. *)
Definition logged (w : World) (st' : Store) (entry : StoreCall) : World :=
  {| oClient := {| k8sDynamicClient := Some st'; eventChan := eventChan (oClient w) |};
     calls := calls w ++ [entry] |}.

(** A method call on [oClient.k8sDynamicClient]: a nil interface panics;
    otherwise the cluster moves and the call is logged. *)
Definition onStore {A : Type} (verb : Store -> A * Store) (entry : A -> StoreCall) : Go A :=
  fun w =>
    match k8sDynamicClient (oClient w) with
    | None => (Panics "invalid memory address or nil pointer dereference", w)
    | Some st => let '(r, st') := verb st in (Returns r, logged w st' (entry r))
    end.

Definition Create res sc data : Go (Unstructured + error) :=
  onStore (dynCreate res sc data) (CallCreate res sc data).
Definition Get res sc name : Go (Unstructured + error) :=
  onStore (dynGet res sc name) (CallGet res sc name).
Definition Update res sc data : Go (Unstructured + error) :=
  onStore (dynUpdate res sc data) (CallUpdate res sc data).
Definition Delete_ res sc name opts : Go (option error) :=
  onStore (dynDelete res sc name opts) (CallDelete res sc name opts).

Definition createResource (res : GroupVersionResource) (data : Unstructured)
  : Go (option error) :=
  call r <- Create res (Namespaced (GetNamespace data)) data ;;
  match r with
  | inr _ =>
      call r <- Create res Unscoped data ;;
      match r with
      | inr err =>
          ret (Some (Wrapf err "unable to create the requested resource, attempting to update"))
      | inl _ => ret None
      end
  | inl _ => ret None
  end.

Definition getResource (res : GroupVersionResource) (data : Unstructured)
  : Go (Unstructured + error) :=
  call r <- Get res (Namespaced (GetNamespace data)) (GetName data) ;;
  match r with
  | inr _ =>
      call r <- Get res Unscoped (GetName data) ;;
      match r with
      | inr err =>
          ret (inr (Wrapf err
            "unable to retrieve the resource with a matching name, while attempting to apply the config"))
      | inl data1 => ret (inl data1)
      end
  | inl data1 => ret (inl data1)
  end.

Definition updateResource (res : GroupVersionResource) (data : Unstructured)
  : Go (option error) :=
  call r <- Update res (Namespaced (GetNamespace data)) data ;;
  match r with
  | inr _ =>
      call r <- Update res Unscoped data ;;
      match r with
      | inr err =>
          ret (Some (Wrapf err
            "unable to update resource with the given name, while attempting to apply the config"))
      | inl _ => ret None
      end
  | inl _ => ret None
  end.

(** Lines 90-93 of [deleteResource]: [depl["spec"].(map[string]interface{})]
    panics unless the entry is there and is a map; [spec1] is the map
    inside [depl], so the assignment shows in [data1]. *)
Definition zeroReplicas (data1 : Unstructured) : Go Unstructured :=
  let depl := UnstructuredContent data1 in
  match depl !! "spec" with
  | Some (VMap spec1) =>
      ret (SetUnstructuredContent
             (<["spec" := VMap (<["replicas" := VInt 0]> spec1)]> depl) data1)
  | _ => panic "interface conversion: interface {} is not map[string]interface {}"
  end.

Definition deleteResource (res : GroupVersionResource) (data : Unstructured)
  : Go (option error) :=
  call isNil <- clientIsNil ;;
  if isNil then ret (Some (errors_New "mesh client has not been created"))
  else if String.eqb (Resource res) "namespaces" && String.eqb (GetName data) "default"
  then ret None
  else
    call scaled <-
      (if String.eqb (Resource res) "deployments" then
         call g <- getResource res data ;;
         match g with
         | inr err => ret (Some err)
         | inl data1 =>
             call data1 <- zeroReplicas data1 ;;
             updateResource res data1
         end
       else ret None) ;;
    match scaled with
    | Some err => ret (Some err)
    | None =>
        let policy := DeletePropagationBackground in
        call d <- Delete_ res (Namespaced (GetNamespace data)) (GetName data)
               {| PropagationPolicy := Some policy |} ;;
        match d with
        | Some _ =>
            call d <- Delete_ res Unscoped (GetName data) {| PropagationPolicy := None |} ;;
            match d with
            | Some err => ret (Some (Wrapf err "unable to delete the requested resource"))
            | None => ret None
            end
        | None => ret None
        end
    end.

(** Lines 191-215 of [executeManifest]: the resource coordinate of a
    document. *)
Definition computedResource (data : Unstructured) : GroupVersionResource :=
  let groupVersion := Split (GetAPIVersion data) "/" in
  let '(group, version) :=
    match groupVersion with
    | [g; v] => (g, v)
    | [v] => (EmptyString, v)
    | _ => (EmptyString, EmptyString)
    end in
  let kind := ToLower (GetKind data) in
  let kind :=
    if String.eqb kind "logentry" then "logentries"
    else if String.eqb kind "kubernetes" then "kuberneteses"
    else kind +:+ "s" in
  {| Group := group; Version := version; Resource := kind |}.

(** Lines 188-190: the caller's namespace, when given, replaces the
    document's. *)
Definition withNamespace (namespace : string) (data : Unstructured) : Unstructured :=
  if String.eqb namespace "" then data else SetNamespace namespace data.

Definition executeManifest (data : Unstructured) (namespace : string) (delete : bool)
  : Go (option error) :=
  let data := withNamespace namespace data in
  let res := computedResource data in
  if delete then deleteResource res data
  else
    call e <- createResource res data ;;
    match e with
    | Some _ =>
        call g <- getResource res data ;;
        match g with
        | inr err => ret (Some err)
        | inl data1 => updateResource res data1
        end
    | None => ret None
    end.

(** [%T] of a decoded value. *)
Definition typeName (v : value) : string :=
  match v with
  | VNull => "<nil>"
  | VBool _ => "bool"
  | VInt _ => "int64"
  | VFloat _ => "float64"
  | VString _ => "string"
  | VList _ => "[]interface {}"
  | VMap _ => "map[string]interface {}"
  end.

(** The loop of [EachListItem]. *)
Fixpoint eachItem (fn : Unstructured -> Go (option error)) (items : list value)
  : Go (option error) :=
  match items with
  | [] => ret None
  | VMap child :: rest =>
      call e <- fn {| Object := child |} ;;
      match e with
      | Some err => ret (Some err)
      | None => eachItem fn rest
      end
  | _ :: _ => ret (Some "items member is not an object: map[string]interface {}")
  end.

(** [EachListItem], a method of [Unstructured] *)
Definition EachListItem (u : Unstructured) (fn : Unstructured -> Go (option error))
  : Go (option error) :=
  match Object u !! "items" with
  | None => ret (Some "content is not a list")
  | Some (VList items) => eachItem fn items
  | Some field => ret (Some ("content is not a list: " +:+ typeName field))
  end.

Definition applyManifestPayload (namespace : string) (newBytes : string) (delete : bool)
  : Go (option error) :=
  call isNil <- clientIsNil ;;
  if isNil then ret (Some (errors_New "mesh client has not been created"))
  else
    match YAMLToJSON newBytes with
    | inr err => ret (Some (Wrapf err "unable to convert yaml to json"))
    | inl jsonBytes =>
        if (5 <? String.length jsonBytes)%nat then
          match UnmarshalJSON jsonBytes with
          | inr err => ret (Some (Wrapf err "unable to unmarshal json created from yaml"))
          | inl data =>
              if IsList data then
                EachListItem data (fun dataL => executeManifest dataL namespace delete)
              else executeManifest data namespace delete
          end
        else ret None
    end.

(** The test of lines 419-421 on the message of an error. *)
Definition notFoundError (err : error) : bool :=
  let errStr := TrimSpace err in
  HasSuffix errStr "not found" ||
  HasSuffix errStr "the server could not find the requested resource".

(** The [for _, yml := range yamls] loop of [applyConfigChange]. *)
Fixpoint applyEach (yamls : list string) (namespace : string) (delete : bool)
  : Go (option error) :=
  match yamls with
  | [] => ret None
  | yml :: rest =>
      if String.eqb (TrimSpace yml) "" then applyEach rest namespace delete
      else
        call e <- applyManifestPayload namespace yml delete ;;
        match e with
        | Some err =>
            if delete && notFoundError err then applyEach rest namespace delete
            else ret (Some err)
        | None => applyEach rest namespace delete
        end
  end.

Definition applyConfigChange (yamlFileContents namespace : string) (delete : bool)
  : Go (option error) :=
  let yamls := Split yamlFileContents "---" in
  applyEach yamls namespace delete.

End Client.

(** ** The event reader *)

(** [make(chan *meshes.EventsResponse, 100)] in [CreateMeshInstance] *)
Definition eventChanCap : nat := 100.

Section Events.

(** The gRPC stream of [StreamEvents]; [Send] is its one delivery
    attempt. *)
Context {Store : Type} {Conn : Type}.
Variable Send : EventsResponse -> Conn -> option error * Conn.

(** The reader's view of the process: the client, the stream, the
    goroutines started at line 455 that have not yet run their
    [oClient.eventChan <- event] (oldest first), and the events the
    reader has taken off the channel so far. *)
Record Streaming : Type := mkStreaming {
  sClient : @OctarineClient Store;
  stream : Conn;
  senders : list EventsResponse;
  received : list EventsResponse
}.

Definition setChan (q : list EventsResponse) (c : @OctarineClient Store)
  : @OctarineClient Store :=
  {| k8sDynamicClient := k8sDynamicClient c; eventChan := q |}.

(** One pass through the body of the [for] loop of [StreamEvents]: the
    [select] with its [default], without the sleep.  [Some err] is the
    [return err] of line 459. *)
Definition pollOnce (w : Streaming) : option error * Streaming :=
  match eventChan (sClient w) with
  | [] => (None, w)
  | event :: q =>
      let '(r, conn) := Send event (stream w) in
      match r with
      | Some err =>
          (Some (Wrapf err "unable to send event"),
           {| sClient := setChan q (sClient w); stream := conn;
              senders := senders w ++ [event];
              received := received w ++ [event] |})
      | None =>
          (None,
           {| sClient := setChan q (sClient w); stream := conn;
              senders := senders w;
              received := received w ++ [event] |})
      end
  end.

(** [StreamEvents] for at most [cycles] passes; [None] says the loop is
    still running after them. *)
Fixpoint StreamEvents (cycles : nat) (w : Streaming) : option error * Streaming :=
  match cycles with
  | O => (None, w)
  | S n =>
      match pollOnce w with
      | (Some err, w') => (Some err, w')
      | (None, w') => StreamEvents n w'
      end
  end.

(** The goroutine at position [i] runs its [oClient.eventChan <- event]:
    the event goes to the tail of the buffer when there is room, and the
    goroutine stays blocked when there is none. *)
Definition senderStep (i : nat) (w : Streaming) : Streaming :=
  match senders w !! i with
  | Some event =>
      if (List.length (eventChan (sClient w)) <? eventChanCap)%nat then
        {| sClient := setChan (eventChan (sClient w) ++ [event]) (sClient w);
           stream := stream w;
           senders := delete i (senders w);
           received := received w |}
      else w
  | None => w
  end.

(** The events that are waiting: those in the channel and those held by
    a goroutine. *)
Definition inFlight (w : Streaming) : list EventsResponse :=
  eventChan (sClient w) ++ senders w.

(** The deliveries of [events], one after the other, all succeed. *)
Fixpoint allDelivered (events : list EventsResponse) (conn : Conn) : bool :=
  match events with
  | [] => true
  | event :: rest =>
      match Send event conn with
      | (None, conn') => allDelivered rest conn'
      | (Some _, _) => false
      end
  end.

End Events.

(** ** The install workflows *)

(** [RemoveNestedField(obj, "metadata", field)] *)
Definition removeMetadataField (field : string) (obj : gmap string value)
  : gmap string value :=
  match obj !! "metadata" with
  | Some (VMap m) => <["metadata" := VMap (delete field m)]> obj
  | _ => obj
  end.

(** [u.setNestedField(v, "metadata", field)]: the error of
    [SetNestedField] is dropped, and the object is then as it was. *)
Definition setMetadataField (field : string) (v : value) (u : Unstructured)
  : Unstructured :=
  match setNestedFieldNoCopy (Object u) v "metadata" [field] with
  | Some obj => {| Object := obj |}
  | None => u
  end.

(** [SetName], a method of [Unstructured]; an empty name removes the
    field. *)
Definition SetName (name : string) (u : Unstructured) : Unstructured :=
  match name with
  | EmptyString => {| Object := removeMetadataField "name" (Object u) |}
  | _ => setMetadataField "name" (VString name) u
  end.

(** [SetResourceVersion], a method of [Unstructured]; an empty version
    removes the field. *)
Definition SetResourceVersion (resourceVersion : string) (u : Unstructured)
  : Unstructured :=
  match resourceVersion with
  | EmptyString => {| Object := removeMetadataField "resourceVersion" (Object u) |}
  | _ => setMetadataField "resourceVersion" (VString resourceVersion) u
  end.

Definition GetResourceVersion (u : Unstructured) : string :=
  getNestedString (Object u) ["metadata"; "resourceVersion"].

(** [SetLabels], a method of [Unstructured], for a map that is not
    [nil]: the labels are stored as a map of strings, in place of what
    was there. *)
Definition SetLabels (labels : gmap string string) (u : Unstructured) : Unstructured :=
  setMetadataField "labels" (VMap (VString <$> labels)) u.

(** [meshes.ApplyRuleRequest] *)
Record ApplyRuleRequest : Type := mkApplyRuleRequest {
  OpName : string;
  Namespace : string;
  Username : string;
  CustomBody : string;
  DeleteOp : bool
}.

(** A goroutine started by [ApplyOperation]. *)
Inductive Spawned : Type :=
| GoInstallOctarine (arReq : ApplyRuleRequest)
| GoInstallBookInfo (arReq : ApplyRuleRequest)
| GoRunVet.

(** An entry of the table [supportedOps]. *)
Record supportedOperation : Type := mkSupportedOperation {
  name : string;
  templateName : string
}.

Section Workflows.

Context {Store : Type} `{DynamicInterface Store}.
Variable YAMLToJSON : string -> string + error.
Variable UnmarshalJSON : string -> Unstructured + error.

(** The client with its field [octarineDataplaneNs], which the install
    workflows write and read. *)
Record Adapter : Type := mkAdapter {
  world : @World Store;
  octarineDataplaneNs : string
}.

Definition Op (A : Type) : Type := Adapter -> Outcome A * Adapter.

Definition opRet {A : Type} (a : A) : Op A := fun s => (Returns a, s).

Definition opBind {A B : Type} (m : Op A) (k : A -> Op B) : Op B :=
  fun s =>
    match m s with
    | (Returns a, s') => k a s'
    | (Panics msg, s') => (Panics msg, s')
    end.

(** A call of one of the engine's functions on the client. *)
Definition liftGo {A : Type} (m : Go A) : Op A :=
  fun s =>
    let '(out, w') := m (world s) in
    (out, {| world := w'; octarineDataplaneNs := octarineDataplaneNs s |}).

(** [oClient.octarineDataplaneNs] read and written. *)
Definition dataplaneNs : Op string := fun s => (Returns (octarineDataplaneNs s), s).
Definition setDataplaneNs (namespace : string) : Op unit :=
  fun s => (Returns tt, {| world := world s; octarineDataplaneNs := namespace |}).

(** [defer f()] around a body: [f] runs when the body has returned and
    when it has panicked, its result is dropped, and a panic of [f] takes
    the place of the outcome. *)
Definition deferring {A B : Type} (deferred : Op B) (body : Op A) : Op A :=
  fun s =>
    let '(out, s1) := body s in
    match deferred s1 with
    | (Returns _, s2) => (out, s2)
    | (Panics msg, s2) => (Panics msg, s2)
    end.

Local Notation "'step' x <- m ;; k" := (opBind m (fun x => k))
  (at level 10, x name, m at level 99, k at level 200).

(** Functions of the package that are kept in other files: the two
    manifests and the provisioning of the supporting objects. *)
Variable getBookInfoAppYAML : Op (string + error).
Variable getOctarineYAMLs : string -> Op (string + error).
Variable createCpObjects : Op (option error).
Variable deleteCpObjects : Op (option error).

Definition labelNamespaceForAutoInjection (namespace : string) : Op (option error) :=
  let ns := {| Object := ∅ |} in
  let res := {| Group := ""; Version := "v1"; Resource := "namespaces" |} in
  let ns := SetName namespace ns in
  step g <- liftGo (getResource res ns) ;;
  match g with
  | inr err => opRet (Some err)
  | inl ns =>
      let ns := SetLabels {[ "octarine-injection" := "enabled" ]} ns in
      step e <- liftGo (updateResource res ns) ;;
      match e with
      | Some err => opRet (Some err)
      | None =>
          let secret := {| Object := ∅ |} in
          let res := {| Group := ""; Version := "v1"; Resource := "secrets" |} in
          let secret := SetName "docker-registry-secret" secret in
          step dpNs <- dataplaneNs ;;
          let secret := SetNamespace dpNs secret in
          step g <- liftGo (getResource res secret) ;;
          match g with
          | inr err => opRet (Some err)
          | inl secret =>
              let secret := SetNamespace namespace secret in
              let secret := SetResourceVersion "" secret in
              step e <- liftGo (createResource res secret) ;;
              match e with
              | Some err => opRet (Some err)
              | None => opRet None
              end
          end
      end
  end.

(** [executeInstall]: the result is the request as the function leaves
    it (its [Namespace] is written when it was empty) and the error. *)
Definition executeInstall (arReq : ApplyRuleRequest)
  : Op (ApplyRuleRequest * option error) :=
  let arReq :=
    if String.eqb (Namespace arReq) "" then
      {| OpName := OpName arReq; Namespace := "octarine-dataplane";
         Username := Username arReq; CustomBody := CustomBody arReq;
         DeleteOp := DeleteOp arReq |}
    else arReq in
  step _ <- setDataplaneNs (Namespace arReq) ;;
  let rest : Op (ApplyRuleRequest * option error) :=
    step y <- getOctarineYAMLs (Namespace arReq) ;;
    match y with
    | inr err => opRet (arReq, Some err)
    | inl dataplaneYaml =>
        step e <- liftGo (applyConfigChange YAMLToJSON UnmarshalJSON dataplaneYaml
                            (Namespace arReq) (DeleteOp arReq)) ;;
        match e with
        | Some err => opRet (arReq, Some err)
        | None => opRet (arReq, None)
        end
    end in
  if DeleteOp arReq then deferring deleteCpObjects rest
  else
    step e <- createCpObjects ;;
    match e with
    | Some err => opRet (arReq, Some err)
    | None => rest
    end.

Definition executeBookInfoInstall (arReq : ApplyRuleRequest) : Op (option error) :=
  step labelled <-
    (if negb (DeleteOp arReq) then labelNamespaceForAutoInjection (Namespace arReq)
     else opRet None) ;;
  match labelled with
  | Some err => opRet (Some err)
  | None =>
      step y <- getBookInfoAppYAML ;;
      match y with
      | inr err => opRet (Some err)
      | inl yamlFileContents =>
          step e <- liftGo (applyConfigChange YAMLToJSON UnmarshalJSON yamlFileContents
                              (Namespace arReq) (DeleteOp arReq)) ;;
          match e with
          | Some err => opRet (Some err)
          | None => opRet None
          end
      end
  end.

(** The body of the goroutine of lines 332-355, up to its send: the
    result is the event that the goroutine then puts on [eventChan]. *)
Definition installOctarineUnit (arReq : ApplyRuleRequest) : Op EventsResponse :=
  let opName1 := if DeleteOp arReq then "removing" else "deploying" in
  step r <- executeInstall arReq ;;
  let '(arReq, e) := r in
  match e with
  | Some err =>
      opRet {| EventType_of := EventType_ERROR;
               Summary := "Error while " +:+ opName1 +:+ " Octarine";
               Details := err |}
  | None =>
      let opName := if DeleteOp arReq then "removed" else "deployed" in
      opRet {| EventType_of := EventType_INFO;
               Summary := "Octarine " +:+ opName +:+ " successfully";
               Details := "The latest version of Octarine is now " +:+ opName +:+ "." |}
  end.

(** The body of the goroutine of lines 358-381, up to its send. *)
Definition installBookInfoUnit (arReq : ApplyRuleRequest) : Op EventsResponse :=
  let opName1 := if DeleteOp arReq then "removing" else "deploying" in
  step e <- executeBookInfoInstall arReq ;;
  match e with
  | Some err =>
      opRet {| EventType_of := EventType_ERROR;
               Summary := "Error while " +:+ opName1 +:+ " the canonical Book Info App";
               Details := err |}
  | None =>
      let opName := if DeleteOp arReq then "removed" else "deployed" in
      opRet {| EventType_of := EventType_INFO;
               Summary := "Book Info app " +:+ opName +:+ " successfully";
               Details := "The canonical Book Info app is now " +:+ opName +:+ "." |}
  end.

(** The table [supportedOps], the names of the built-in operations,
    and the template functions of [text/template] and [path], all kept
    outside the file. *)
Variable supportedOps : gmap string supportedOperation.
Variable customOpCommand : string.
Variable installOctarineCommand : string.
Variable installBookInfoCommand : string.
Variable runVet : string.
Variable Template : Type.
Variable path_Join : list string -> string.
Variable template_ParseFiles : string -> Template + error.
Variable template_Execute : Template -> gmap string string -> string * option error.

(** Lines 406-410 of [ApplyOperation]. *)
Definition applyAndRespond (yamlFileContents : string) (arReq : ApplyRuleRequest)
  : Op ((unit + error) * list Spawned) :=
  step e <- liftGo (applyConfigChange YAMLToJSON UnmarshalJSON yamlFileContents
                      (Namespace arReq) (DeleteOp arReq)) ;;
  match e with
  | Some err => opRet (inr err, [])
  | None => opRet (inl tt, [])
  end.

(** [ApplyOperation]: the response or the error, and the goroutines
    that have been started. *)
Definition ApplyOperation (arReq : option ApplyRuleRequest)
  : Op ((unit + error) * list Spawned) :=
  match arReq with
  | None => opRet (inr (errors_New "mesh client has not been created"), [])
  | Some arReq =>
      match supportedOps !! OpName arReq with
      | None =>
          opRet (inr ("error: " +:+ OpName arReq +:+ " is not a valid operation name"), [])
      | Some op =>
          if String.eqb (OpName arReq) customOpCommand && String.eqb (CustomBody arReq) ""
          then
            opRet (inr ("error: yaml body is empty for " +:+ OpName arReq +:+ " operation"),
                   [])
          else if String.eqb (OpName arReq) customOpCommand then
            applyAndRespond (CustomBody arReq) arReq
          else if String.eqb (OpName arReq) installOctarineCommand then
            opRet (inl tt, [GoInstallOctarine arReq])
          else if String.eqb (OpName arReq) installBookInfoCommand then
            opRet (inl tt, [GoInstallBookInfo arReq])
          else if String.eqb (OpName arReq) runVet then
            opRet (inl tt, [GoRunVet])
          else
            match template_ParseFiles
                    (path_Join ["octarine"; "config_templates"; templateName op]) with
            | inr err => opRet (inr (Wrapf err "unable to parse template"), [])
            | inl tmpl =>
                match template_Execute tmpl
                        (<["user_name" := Username arReq]>
                           (<["namespace" := Namespace arReq]> ∅)) with
                | (_, Some err) => opRet (inr (Wrapf err "unable to execute template"), [])
                | (text, None) => applyAndRespond text arReq
                end
            end
      end
  end.

End Workflows.

(** ** Creating the client *)

(** [meshes.CreateMeshInstanceRequest] *)
Record CreateMeshInstanceRequest : Type := mkCreateMeshInstanceRequest {
  K8SConfig : string;
  ContextName : string
}.

Section NewClient.

Context {Store : Type}.

(** What [client-go] provides: the kubeconfig once loaded, with its
    field [CurrentContext]; the [rest.Config], with its fields [QPS] (a
    [float32], which holds whole numbers here) and [Burst]; the loaders
    and the constructors of the two clients. *)
Variable KubeconfigBody : Type.
Variable RestBody : Type.
Variable Clientset : Type.

Record ClientcmdConfig : Type := mkClientcmdConfig {
  CurrentContext : string;
  kubeconfigBody : KubeconfigBody
}.

Record RestConfig : Type := mkRestConfig {
  QPS : Z;
  Burst : Z;
  restBody : RestBody
}.

Variable clientcmd_Load : string -> ClientcmdConfig + error.
Variable ClientConfig : ClientcmdConfig -> RestConfig + error.
Variable InClusterConfig : RestConfig + error.
Variable dynamic_NewForConfig : RestConfig -> Store + error.
Variable kubernetes_NewForConfig : RestConfig -> Clientset + error.

Definition configClient (kubeconfig contextName : string) : RestConfig + error :=
  if (0 <? String.length kubeconfig)%nat then
    match clientcmd_Load kubeconfig with
    | inr err => inr err
    | inl ccfg =>
        let ccfg :=
          if negb (String.eqb contextName "") then
            {| CurrentContext := contextName; kubeconfigBody := kubeconfigBody ccfg |}
          else ccfg in
        ClientConfig ccfg
    end
  else InClusterConfig.

(** What [newClient] fills in of the [OctarineClient] it returns. *)
Record NewClient : Type := mkNewClient {
  newDynamicClient : Store;
  newClientset : Clientset;
  newConfig : RestConfig
}.

Definition newClient (kubeconfig contextName : string) : NewClient + error :=
  match configClient kubeconfig contextName with
  | inr err => inr err
  | inl config =>
      let config := {| QPS := 100; Burst := 200; restBody := restBody config |} in
      match dynamic_NewForConfig config with
      | inr err => inr err
      | inl dynamicClient =>
          match kubernetes_NewForConfig config with
          | inr err => inr err
          | inl k8sClientset =>
              inl {| newDynamicClient := dynamicClient;
                     newClientset := k8sClientset;
                     newConfig := config |}
          end
      end
  end.

(** [CreateMeshInstance].  Of the four fields it assigns, the client
    modelled here carries [k8sDynamicClient] and [eventChan]; the channel
    it makes is empty. *)
Definition CreateMeshInstance (k8sReq : option CreateMeshInstanceRequest)
  : @Go Store (unit + error) :=
  let '(k8sConfig, contextName) :=
    match k8sReq with
    | Some req => (K8SConfig req, ContextName req)
    | None => (EmptyString, EmptyString)
    end in
  match newClient k8sConfig contextName with
  | inr err => ret (inr (Wrapf err "unable to create a new Octarine client"))
  | inl oc =>
      fun w =>
        (Returns (inl tt),
         {| oClient := {| k8sDynamicClient := Some (newDynamicClient oc);
                          eventChan := [] |};
            calls := calls w |})
  end.

End NewClient.

(** ** Concrete collaborators, to run the engine on examples *)

(** A cluster that answers from a script: every call takes the next
    reply, whatever is asked. *)
Definition Script : Type := list (Unstructured + error).

Definition nextReply (st : Script) : (Unstructured + error) * Script :=
  match st with
  | r :: rest => (r, rest)
  | [] => (inr "the script has no reply left", [])
  end.

Definition nextStatus (st : Script) : option error * Script :=
  match nextReply st with
  | (inl _, rest) => (None, rest)
  | (inr err, rest) => (Some err, rest)
  end.

#[export] Instance scripted : DynamicInterface Script := {|
  dynCreate _ _ _ := nextReply;
  dynGet _ _ _ := nextReply;
  dynUpdate _ _ _ := nextReply;
  dynDelete _ _ _ _ := nextStatus
|}.

(** A decoder pair for examples: the text is taken as JSON already, and
    every text that is long enough decodes to [doc]. *)
Definition yamlAsIs (newBytes : string) : string + error := inl newBytes.
Definition decodeTo (doc : Unstructured) (jsonBytes : string) : Unstructured + error :=
  inl doc.

Definition metadataOf (name namespace : string) : value :=
  VMap (<["name" := VString name]> (<["namespace" := VString namespace]> ∅)).

Definition podDoc : Unstructured :=
  {| Object := <["apiVersion" := VString "v1"]>
               (<["kind" := VString "Pod"]>
               (<["metadata" := metadataOf "web" "demo"]> ∅)) |}.

Definition deploymentDoc : Unstructured :=
  {| Object := <["apiVersion" := VString "apps/v1"]>
               (<["kind" := VString "Deployment"]>
               (<["metadata" := metadataOf "web" "demo"]>
               (<["spec" := VMap (<["replicas" := VInt 3]> ∅)]> ∅))) |}.

Definition defaultNamespaceDoc : Unstructured :=
  {| Object := <["apiVersion" := VString "v1"]>
               (<["kind" := VString "Namespace"]>
               (<["metadata" := VMap (<["name" := VString "default"]> ∅)]> ∅)) |}.

Definition scriptedWorld (replies : Script) : @World Script :=
  {| oClient := {| k8sDynamicClient := Some replies; eventChan := [] |}; calls := [] |}.

(** A stream whose next [n] deliveries fail. *)
Definition flakySend (event : EventsResponse) (n : nat) : option error * nat :=
  match n with
  | O => (None, O)
  | S k => (Some "transport is closing", k)
  end.

(** The client of the examples with its dataplane namespace. *)
Definition scriptedAdapter (replies : Script) : @Adapter Script :=
  {| world := scriptedWorld replies; octarineDataplaneNs := "octarine-dataplane" |}.

(** Manifests and provisioning for examples. *)
Definition sampleBookInfoYAML : @Op Script (string + error) :=
  opRet (inl "kind: Pod, name: productpage").
Definition sampleOctarineYAMLs (namespace : string) : @Op Script (string + error) :=
  opRet (inl ("kind: Pod, namespace: " +:+ namespace)).
Definition sampleCpObjects : @Op Script (option error) := opRet None.

(** A table of operations and a template engine for examples: a
    template is its path, and it renders to its path. *)
Definition sampleOps : gmap string supportedOperation :=
  <["custom" := {| name := "Custom YAML"; templateName := "" |}]>
  (<["octarine_install" := {| name := "Install Octarine"; templateName := "" |}]>
  (<["install_book_info" := {| name := "Install Book Info"; templateName := "" |}]>
  (<["octarine_vet" := {| name := "Run vet"; templateName := "" |}]> ∅))).
Definition samplePathJoin (elem : list string) : string := Join elem "/".
Definition sampleParseFiles (path : string) : string + error := inl path.
Definition sampleExecute (tmpl : string) (data : gmap string string)
  : string * option error := (tmpl, None).

(** Loaders and constructors for examples: no in-cluster configuration,
    a kubeconfig that always loads, and a cluster with an empty script. *)
Definition sampleLoad (kubeconfig : string) : ClientcmdConfig string + error :=
  inl {| CurrentContext := "default"; kubeconfigBody := kubeconfig |}.
Definition sampleClientConfig (ccfg : ClientcmdConfig string) : RestConfig string + error :=
  inl {| QPS := 5; Burst := 10; restBody := CurrentContext _ ccfg |}.
Definition sampleInCluster : RestConfig string + error :=
  inr "unable to load in-cluster configuration".
Definition sampleDynamic (config : RestConfig string) : Script + error := inl [].
Definition sampleClientset (config : RestConfig string) : unit + error := inl tt.

Definition sampleEvent (summary : string) : EventsResponse :=
  {| EventType_of := EventType_INFO; Summary := summary; Details := "" |}.

(** * Properties *)

(** ** Strings *)

Section StringFacts.

Lemma append_nil_l (s : string) : "" +:+ s = s.
Proof. reflexivity. Qed.

Lemma append_cons (c : ascii) (s t : string) : String c s +:+ t = String c (s +:+ t).
Proof. reflexivity. Qed.

Lemma append_nil_r (s : string) : s +:+ "" = s.
Proof.
  induction s as [|c s IH]; [reflexivity|]. now rewrite append_cons, IH.
Qed.

Lemma append_assoc (a b c : string) : (a +:+ b) +:+ c = a +:+ (b +:+ c).
Proof.
  induction a as [|x a IH]; [reflexivity|]. now rewrite !append_cons, IH.
Qed.

Lemma length_append (a b : string) :
  String.length (a +:+ b) = (String.length a + String.length b)%nat.
Proof.
  induction a as [|x a IH]; [reflexivity|]. rewrite append_cons. simpl. now rewrite IH.
Qed.

Lemma slice_to_from (n : nat) (s : string) : slice_to n s +:+ slice_from n s = s.
Proof.
  revert s; induction n as [|n IH]; intros [|c s]; simpl; try reflexivity.
  now rewrite append_cons, IH.
Qed.

Lemma length_slice_from (n : nat) (s : string) :
  String.length (slice_from n s) = (String.length s - n)%nat.
Proof.
  revert s; induction n as [|n IH]; intros [|c s]; simpl; try reflexivity.
  apply IH.
Qed.


Lemma slice_from_append (a b : string) : slice_from (String.length a) (a +:+ b) = b.
Proof.
  induction a as [|x a IH]; [now destruct b | rewrite append_cons; exact IH].
Qed.


Lemma HasPrefix_append (p r : string) : HasPrefix (p +:+ r) p = true.
Proof.
  induction p as [|x p IH]; [reflexivity|].
  rewrite append_cons. simpl. now rewrite Ascii.eqb_refl, IH.
Qed.

Lemma HasPrefix_inv (s p : string) :
  HasPrefix s p = true -> s = p +:+ slice_from (String.length p) s.
Proof.
  revert s; induction p as [|x p IH]; intros s Hp.
  - now destruct s.
  - destruct s as [|c s]; [discriminate|]. simpl in Hp.
    apply andb_prop in Hp as [Hc Hp]. apply Ascii.eqb_eq in Hc. subst c.
    rewrite append_cons. simpl. f_equal. now apply IH.
Qed.

Lemma HasPrefix_nil (p : string) : p <> "" -> HasPrefix "" p = false.
Proof. destruct p; [congruence | reflexivity]. Qed.

(** The separator sits at the index that [Index] returns. *)
Lemma Index_Some_inv (sep s : string) (m : nat) :
  Index s sep = Some m ->
  s = slice_to m s +:+ sep +:+ slice_from (m + String.length sep) s /\
  String.length (slice_to m s) = m.
Proof.
  revert m; induction s as [|c s IH]; intros m Hm; simpl in Hm.
  - destruct (HasPrefix "" sep) eqn:Hp; [|discriminate].
    injection Hm as <-. split; [|reflexivity].
    now apply HasPrefix_inv in Hp.
  - destruct (HasPrefix (String c s) sep) eqn:Hp.
    + injection Hm as <-. split; [|reflexivity].
      now apply HasPrefix_inv in Hp.
    + destruct (Index s sep) as [k|] eqn:Hk; [|discriminate].
      injection Hm as <-. destruct (IH k eq_refl) as [Hs Hl].
      simpl. split; [now rewrite append_cons, <- Hs | now rewrite Hl].
Qed.

Lemma Index_append (sep a b : string) : Index (a +:+ sep +:+ b) sep <> None.
Proof.
  induction a as [|x a IH].
  - rewrite append_nil_l.
    assert (Hp : HasPrefix (sep +:+ b) sep = true) by apply HasPrefix_append.
    destruct (sep +:+ b); simpl; now rewrite Hp.
  - rewrite append_cons. simpl.
    destruct (HasPrefix _ sep); [discriminate|].
    destruct (Index (a +:+ sep +:+ b) sep); [discriminate | congruence].
Qed.

(** [Index] fails exactly on the strings that do not hold the separator. *)
Lemma Index_None_iff (sep s : string) :
  Index s sep = None <-> forall a b, s <> a +:+ sep +:+ b.
Proof.
  split.
  - intros Hn a b ->. now apply (Index_append sep a b).
  - intros Hs. destruct (Index s sep) as [m|] eqn:Hm; [|reflexivity].
    apply Index_Some_inv in Hm as [Hm _]. now apply Hs in Hm.
Qed.


(** Nothing before the leftmost separator holds a separator. *)
Lemma Index_slice_to (sep s : string) (m : nat) :
  sep <> "" -> Index s sep = Some m -> Index (slice_to m s) sep = None.
Proof.
  intros Hsep. revert m; induction s as [|c s IH]; intros m Hm; simpl in Hm.
  - destruct m; simpl; now rewrite HasPrefix_nil.
  - destruct (HasPrefix (String c s) sep) eqn:Hp.
    + injection Hm as <-. simpl. now rewrite HasPrefix_nil.
    + destruct (Index s sep) as [k|] eqn:Hk; [|discriminate].
      injection Hm as <-. simpl slice_to.
      apply Index_None_iff. intros a b Hab.
      destruct a as [|x a].
      * rewrite append_nil_l in Hab.
        assert (HasPrefix (String c s) sep = true); [|congruence].
        rewrite <- (slice_to_from k s), <- append_cons, Hab, append_assoc.
        apply HasPrefix_append.
      * rewrite append_cons in Hab. injection Hab as _ Hab. specialize (IH k eq_refl).
        rewrite Index_None_iff in IH. now apply (IH a b).
Qed.


Lemma length_nil_inv (s : string) : String.length s = O -> s = "".
Proof. now destruct s. Qed.

(** A bound of [len(s)] cuts is as good as any larger one. *)
Lemma genSplit_bound (sep : string) (n1 n2 : nat) (s : string) :
  sep <> "" -> (String.length s <= n1)%nat -> (String.length s <= n2)%nat ->
  genSplit n1 s sep = genSplit n2 s sep.
Proof.
  intros Hsep. revert n2 s. induction n1 as [|n1 IH]; intros n2 s H1 H2.
  - assert (s = "") as -> by (apply length_nil_inv; lia).
    destruct n2; simpl; [reflexivity|]. now rewrite HasPrefix_nil.
  - destruct n2 as [|n2].
    + assert (s = "") as -> by (apply length_nil_inv; lia).
      simpl. now rewrite HasPrefix_nil.
    + simpl. destruct (Index s sep) as [m|] eqn:Hm; [|reflexivity].
      f_equal. assert (0 < String.length sep)%nat by (destruct sep; simpl; [congruence | lia]).
      apply IH; rewrite length_slice_from; lia.
Qed.

Lemma genCount_bound (sep : string) (n1 n2 : nat) (s : string) :
  sep <> "" -> (String.length s <= n1)%nat -> (String.length s <= n2)%nat ->
  genCount n1 s sep = genCount n2 s sep.
Proof.
  intros Hsep. revert n2 s. induction n1 as [|n1 IH]; intros n2 s H1 H2.
  - assert (s = "") as -> by (apply length_nil_inv; lia).
    destruct n2; simpl; [reflexivity|]. now rewrite HasPrefix_nil.
  - destruct n2 as [|n2].
    + assert (s = "") as -> by (apply length_nil_inv; lia).
      simpl. now rewrite HasPrefix_nil.
    + simpl. destruct (Index s sep) as [m|] eqn:Hm; [|reflexivity].
      f_equal. assert (0 < String.length sep)%nat by (destruct sep; simpl; [congruence | lia]).
      apply IH; rewrite length_slice_from; lia.
Qed.

(** [Split], one cut at a time. *)
Lemma Split_unfold (s sep : string) :
  sep <> "" ->
  Split s sep =
    match Index s sep with
    | None => [s]
    | Some m => slice_to m s :: Split (slice_from (m + String.length sep) s) sep
    end.
Proof.
  intros Hsep. unfold Split. destruct sep as [|c sep]; [congruence|].
  destruct s as [|x s].
  - simpl. reflexivity.
  - change (String.length (String x s)) with (S (String.length s)).
    cbn [genSplit]. destruct (Index (String x s) (String c sep)) as [m|]; [|reflexivity].
    f_equal. apply genSplit_bound; [congruence | |lia].
    rewrite length_slice_from. simpl. lia.
Qed.

Lemma Count_unfold (s sep : string) :
  sep <> "" ->
  Count s sep =
    match Index s sep with
    | None => O
    | Some m => S (Count (slice_from (m + String.length sep) s) sep)
    end.
Proof.
  intros Hsep. unfold Count. destruct sep as [|c sep]; [congruence|].
  destruct s as [|x s].
  - simpl. reflexivity.
  - change (String.length (String x s)) with (S (String.length s)).
    cbn [genCount]. destruct (Index (String x s) (String c sep)) as [m|]; [|reflexivity].
    f_equal. apply genCount_bound; [congruence | |lia].
    rewrite length_slice_from. simpl. lia.
Qed.







Lemma HasSuffix_iff (s suffix : string) :
  HasSuffix s suffix = true <-> exists a, s = a +:+ suffix.
Proof.
  unfold HasSuffix. split.
  - intros Hs. apply andb_prop in Hs as [_ Hs]. apply String.eqb_eq in Hs.
    exists (slice_to (String.length s - String.length suffix) s).
    transitivity (slice_to (String.length s - String.length suffix) s +:+
                  slice_from (String.length s - String.length suffix) s).
    + symmetry. apply slice_to_from.
    + now rewrite Hs.
  - intros [a ->]. rewrite length_append. apply andb_true_intro. split.
    + apply Nat.leb_le. lia.
    + replace (String.length a + String.length suffix - String.length suffix)%nat
        with (String.length a) by lia.
      rewrite slice_from_append. apply String.eqb_refl.
Qed.



Lemma TrimLeftSpace_suffix (s : string) : exists a, s = a +:+ TrimLeftSpace s.
Proof.
  induction s as [|c s [a IH]]; [now exists ""|].
  simpl. destruct (isSpace c).
  - exists (String c a). now rewrite append_cons, <- IH.
  - now exists "".
Qed.












End StringFacts.

(** ** The document resolver *)

Section Resolver.

Lemma computedResource_Resource (data : Unstructured) :
  Resource (computedResource data) =
    let kind := ToLower (GetKind data) in
    if String.eqb kind "logentry" then "logentries"
    else if String.eqb kind "kubernetes" then "kuberneteses"
    else kind +:+ "s".
Proof.
  unfold computedResource.
  destruct (match Split (GetAPIVersion data) "/" with
            | [g; v] => (g, v) | [v] => ("", v) | _ => ("", "") end) as [g v].
  reflexivity.
Qed.

(** C5.  The resource plural of a document is its lower-cased kind with
    an [s] appended, except for the two irregular kinds [logentry] and
    [kubernetes], whose plurals are the literals [logentries] and
    [kuberneteses]. *)
Theorem C5_resource_plural (data : Unstructured) :
  let kind := ToLower (GetKind data) in
  (kind <> "logentry" -> kind <> "kubernetes" ->
   Resource (computedResource data) = kind +:+ "s") /\
  (kind = "logentry" -> Resource (computedResource data) = "logentries") /\
  (kind = "kubernetes" -> Resource (computedResource data) = "kuberneteses").
Proof.
  intros kind. rewrite computedResource_Resource. fold kind. cbv zeta.
  repeat split.
  - intros H1 H2.
    apply String.eqb_neq in H1, H2. now rewrite H1, H2.
  - intros ->. reflexivity.
  - intros ->. reflexivity.
Qed.

(** The caller's namespace touches nothing but [metadata]. *)
Lemma withNamespace_field (namespace field : string) (data : Unstructured) :
  field <> "metadata" ->
  Object (withNamespace namespace data) !! field = Object data !! field.
Proof.
  intros Hf. unfold withNamespace.
  destruct (String.eqb namespace ""); [reflexivity|].
  unfold SetNamespace, removeNamespaceField. cbn [setNestedFieldNoCopy].
  destruct namespace as [|c namespace];
    destruct (Object data !! "metadata") as [[]|]; cbn [Object option_map];
    try reflexivity; now rewrite lookup_insert_ne.
Qed.

Lemma computedResource_withNamespace (namespace : string) (data : Unstructured) :
  computedResource (withNamespace namespace data) = computedResource data.
Proof.
  unfold computedResource, GetAPIVersion, GetKind, getNestedString.
  cbn [NestedFieldNoCopy].
  now rewrite !withNamespace_field by discriminate.
Qed.

Lemma slash_not_nil : "/" <> "".
Proof. discriminate. Qed.

Lemma Count_zero_Index (s sep : string) :
  sep <> "" -> Index s sep = None -> Count s sep = O.
Proof. intros Hsep Hi. rewrite Count_unfold by assumption. now rewrite Hi. Qed.

(** Group and version, by the number of slashes in [apiVersion]. *)
Lemma group_version_by_slashes (data : Unstructured) :
  let apiVersion := GetAPIVersion data in
  let res := computedResource data in
  (Count apiVersion "/" = 1%nat ->
   apiVersion = Group res +:+ "/" +:+ Version res /\
   Count (Group res) "/" = O /\ Count (Version res) "/" = O) /\
  (Count apiVersion "/" = O -> Group res = "" /\ Version res = apiVersion) /\
  ((2 <= Count apiVersion "/")%nat -> Group res = "" /\ Version res = "").
Proof.
  intros apiVersion res.
  subst res. unfold computedResource. fold apiVersion.
  pose proof slash_not_nil as Hs.
  rewrite (Split_unfold apiVersion "/" Hs), (Count_unfold apiVersion "/" Hs).
  destruct (Index apiVersion "/") as [m|] eqn:Hm.
  - set (rest := slice_from (m + String.length "/") apiVersion).
    rewrite (Split_unfold rest "/" Hs), (Count_unfold rest "/" Hs).
    destruct (Index rest "/") as [m2|] eqn:Hm2.
    + set (rest2 := slice_from (m2 + String.length "/") rest).
      rewrite (Split_unfold rest2 "/" Hs).
      repeat split; try (intros; lia);
        destruct (Index rest2 "/"); reflexivity.
    + cbn [Group Version]. repeat split; try (intros; lia).
      * now apply Index_Some_inv in Hm as [Hm _].
      * apply Count_zero_Index; [assumption|]. now apply Index_slice_to.
      * now apply Count_zero_Index.
  - cbn [Group Version]. repeat split; intros; (lia || reflexivity).
Qed.

End Resolver.

(** ** The apply engine *)

Ltac unfold_engine :=
  unfold executeManifest, deleteResource, createResource, getResource, updateResource,
    zeroReplicas, Create, Get, Update, Delete_, onStore, clientIsNil, bind, ret, panic,
    logged, SetUnstructuredContent, UnstructuredContent.

(** Take the reply of the next call on the cluster, in both its forms. *)
Ltac next_reply :=
  match goal with
  | |- context [dynCreate ?r ?s ?d ?st] =>
      let E := fresh "Ecreate" in
      destruct (dynCreate r s d st) as [[?created|?err] ?st] eqn:E
  | |- context [dynGet ?r ?s ?n ?st] =>
      let E := fresh "Eget" in
      destruct (dynGet r s n st) as [[?got|?err] ?st] eqn:E
  | |- context [dynUpdate ?r ?s ?d ?st] =>
      let E := fresh "Eupdate" in
      destruct (dynUpdate r s d st) as [[?updated|?err] ?st] eqn:E
  | |- context [dynDelete ?r ?s ?n ?o ?st] =>
      let E := fresh "Edelete" in
      destruct (dynDelete r s n o st) as [[?err|] ?st] eqn:E
  end; cbn [oClient k8sDynamicClient eventChan calls].

Ltac with_client w Hc :=
  destruct w as [[[st|] chan] log]; cbn [oClient k8sDynamicClient] in Hc;
  [clear Hc | congruence].

(** Settle a membership in a list that is written out. *)
Ltac pick_call Hin :=
  cbn [In] in Hin;
  repeat match type of Hin with
         | _ \/ _ => destruct Hin as [Hin|Hin]
         | False => destruct Hin
         end.

Ltac give_trace :=
  do 3 eexists; split; [reflexivity|];
  split; [cbn [calls]; rewrite <- ?app_assoc; reflexivity|];
  cbn [app].

(** Settle a case analysis whose cases are written out: pick the case
    that the log at hand is an instance of.  What a case says of every
    map is left for the end, when the objects of the log are known. *)
Ltac pick_case :=
  cbv zeta; cbn [app];
  lazymatch goal with
  | |- _ \/ _ => (left; pick_case) + (right; pick_case)
  | |- _ /\ _ => split; [pick_case | pick_case]
  | |- exists _, _ => eexists; pick_case
  | |- forall _, _ => idtac
  | |- _ => first [reflexivity | eassumption]
  end.

Ltac settle_case := solve [pick_case; intros; congruence].

Section ApplyEngine.

Context {Store : Type} `{DynamicInterface Store}.

(** C1.  On a created client, an apply ([delete = false]) opens with a
    create in the document's namespace.  When that create fails the next call is a
    create without a namespace.  Once a create has succeeded nothing but
    creates has been called and the apply returns [nil].  A get or an
    update is only ever called after both creates have failed, and every
    update is called with the object that an earlier get returned.
    The log is one of these, and no other: the create in the namespace,
    which succeeded; the two creates, the second of which succeeded; or
    the two creates, both failed, followed by the gets and then the
    updates.  The gets are the get in the namespace and, when it failed,
    the get without a namespace; when both failed the apply returns the
    error of the second, wrapped, and nothing is updated.  Otherwise the
    updates are there: the update of the object that the get returned, in
    the namespace of that object, and when it failed the update of the
    same object without a namespace; the apply returns [nil] when one of
    them succeeded and the wrapped error of the second otherwise. *)
Theorem C1_apply_fallback (data : Unstructured) (namespace : string) (w : World) :
  k8sDynamicClient (oClient w) <> None ->
  let doc := withNamespace namespace data in
  let res := computedResource doc in
  let ns := GetNamespace doc in
  let name := GetName doc in
  exists out w' tr,
    executeManifest data namespace false w = (out, w') /\
    calls w' = calls w ++ tr /\
    (exists r rest, tr = CallCreate res (Namespaced ns) doc r :: rest) /\
    (forall e rest, tr = CallCreate res (Namespaced ns) doc (inr e) :: rest ->
       exists r rest', rest = CallCreate res Unscoped doc r :: rest') /\
    (forall c, In c tr -> isCreate c = true -> succeeded c = true ->
       (forall c', In c' tr -> isCreate c' = true) /\ out = Returns None) /\
    (forall c, In c tr -> isGet c || isUpdate c = true ->
       exists e1 e2 rest,
         tr = CallCreate res (Namespaced ns) doc (inr e1)
              :: CallCreate res Unscoped doc (inr e2) :: rest) /\
    (forall rs sc d r, In (CallUpdate rs sc d r) tr ->
       rs = res /\
       exists pre post sc',
         tr = pre ++ CallGet res sc' (GetName doc) (inl d) :: post /\
         Forall (fun c => isUpdate c = false) pre /\
         In (CallUpdate rs sc d r) post) /\
    ((exists created,
        tr = [CallCreate res (Namespaced ns) doc (inl created)] /\ out = Returns None) \/
     (exists e1 created,
        tr = [CallCreate res (Namespaced ns) doc (inr e1);
              CallCreate res Unscoped doc (inl created)] /\ out = Returns None) \/
     (exists e1 e2 gets updates,
        ((exists e3 e4,
            gets = [CallGet res (Namespaced ns) name (inr e3);
                    CallGet res Unscoped name (inr e4)] /\
            updates = [] /\
            out = Returns (Some (Wrapf e4
              "unable to retrieve the resource with a matching name, while attempting to apply the config"))) \/
         (exists got,
            (gets = [CallGet res (Namespaced ns) name (inl got)] \/
             exists e3, gets = [CallGet res (Namespaced ns) name (inr e3);
                                CallGet res Unscoped name (inl got)]) /\
            ((exists updated,
                updates = [CallUpdate res (Namespaced (GetNamespace got)) got (inl updated)] /\
                out = Returns None) \/
             (exists e5 updated,
                updates = [CallUpdate res (Namespaced (GetNamespace got)) got (inr e5);
                           CallUpdate res Unscoped got (inl updated)] /\
                out = Returns None) \/
             (exists e5 e6,
                updates = [CallUpdate res (Namespaced (GetNamespace got)) got (inr e5);
                           CallUpdate res Unscoped got (inr e6)] /\
                out = Returns (Some (Wrapf e6
                  "unable to update resource with the given name, while attempting to apply the config")))))) /\
        tr = CallCreate res (Namespaced ns) doc (inr e1)
             :: CallCreate res Unscoped doc (inr e2) :: gets ++ updates)).
Proof.
  intros Hc doc res ns name. with_client w Hc.
  unfold_engine. fold doc. fold res. fold ns. fold name.
  cbn [oClient k8sDynamicClient eventChan calls].
  repeat next_reply; give_trace.
  all: split; [do 2 eexists; reflexivity|].
  all: split; [intros e0 rest0 Heq; inversion Heq; subst; do 2 eexists; reflexivity|].
  all: split; [intros c Hin Hcr Hsu; pick_call Hin; subst c; try discriminate;
               (split; [intros c' Hin'; pick_call Hin'; subst c'; reflexivity | reflexivity])|].
  all: split; [intros c Hin Hgu; pick_call Hin; subst c; try discriminate;
               do 3 eexists; reflexivity|].
  all: split; [|settle_case].
  all: intros rs sc d r Hin; pick_call Hin; try discriminate;
       inversion Hin; subst; (split; [reflexivity|]).
  all: match goal with
       | |- exists pre post sc', ?tr = _ /\ _ =>
           first [ exists (firstn 2 tr), (skipn 3 tr); cbn [firstn skipn];
                   eexists; split; [reflexivity|]
                 | exists (firstn 3 tr), (skipn 4 tr); cbn [firstn skipn];
                   eexists; split; [reflexivity|] ]
       end.
  all: split; [repeat constructor | cbn [In]; tauto].
Qed.

(** An apply on a created client opens with the create in the document's
    namespace, for the coordinate computed from the document. *)
Lemma executeManifest_opens_with_create (data : Unstructured) (namespace : string)
    (w : World) :
  k8sDynamicClient (oClient w) <> None ->
  let doc := withNamespace namespace data in
  exists out w' r rest,
    executeManifest data namespace false w = (out, w') /\
    calls w' = calls w ++
      CallCreate (computedResource doc) (Namespaced (GetNamespace doc)) doc r :: rest.
Proof.
  intros Hc doc. with_client w Hc.
  unfold_engine. fold doc. cbn [oClient k8sDynamicClient eventChan calls].
  repeat next_reply; do 4 eexists;
    (split; [reflexivity | cbn [calls]; rewrite <- ?app_assoc; reflexivity]).
Qed.

(** C6.  The group and the version of a document come from its
    [apiVersion]: with exactly one slash, the group is what stands before
    it and the version what stands after it; with no slash, the version
    is the whole text and the group is empty; with two or more slashes,
    both are empty.  No shape of [apiVersion] raises an error:
    [computedResource] is total, and on a created client the apply of
    the document goes on to its first create with the coordinate so
    computed. *)
Theorem C6_group_version (data : Unstructured) :
  let apiVersion := GetAPIVersion data in
  let res := computedResource data in
  (Count apiVersion "/" = 1%nat ->
   apiVersion = Group res +:+ "/" +:+ Version res /\
   Count (Group res) "/" = O /\ Count (Version res) "/" = O) /\
  (Count apiVersion "/" = O -> Group res = "" /\ Version res = apiVersion) /\
  ((2 <= Count apiVersion "/")%nat -> Group res = "" /\ Version res = "") /\
  (forall (namespace : string) (w : World),
     k8sDynamicClient (oClient w) <> None ->
     let doc := withNamespace namespace data in
     exists out w' r rest,
       executeManifest data namespace false w = (out, w') /\
       calls w' = calls w ++ CallCreate res (Namespaced (GetNamespace doc)) doc r :: rest).
Proof.
  intros apiVersion res.
  destruct (group_version_by_slashes data) as (Hone & Hnone & Hmore).
  repeat split; try (now apply Hone); try (now apply Hnone); try (now apply Hmore).
  intros namespace w Hc doc. subst res.
  rewrite <- (computedResource_withNamespace namespace data).
  now apply executeManifest_opens_with_create.
Qed.

(** C3.  On a created client, deleting the object named [default] of the
    resource [namespaces] returns [nil] and leaves the world as it was:
    no call is made, whatever the state of the cluster. *)
Theorem C3_default_namespace_kept (res : GroupVersionResource) (data : Unstructured)
    (w : World) :
  k8sDynamicClient (oClient w) <> None ->
  Resource res = "namespaces" ->
  GetName data = "default" ->
  deleteResource res data w = (Returns None, w).
Proof.
  intros Hc Hres Hname. with_client w Hc.
  unfold deleteResource, clientIsNil, bind, ret. cbn [oClient k8sDynamicClient].
  rewrite Hres, Hname. reflexivity.
Qed.

(** The deployments branch of [deleteResource], on a created client. *)
Lemma deleteResource_deployments (res : GroupVersionResource) (data : Unstructured)
    (w : World) :
  k8sDynamicClient (oClient w) <> None ->
  Resource res = "deployments" ->
  deleteResource res data w =
    match getResource res data w with
    | (Returns (inl data1), w1) =>
        match zeroReplicas data1 w1 with
        | (Returns zeroed, w2) =>
            match updateResource res zeroed w2 with
            | (Returns None, w3) =>
                match Delete_ res (Namespaced (GetNamespace data)) (GetName data)
                        {| PropagationPolicy := Some DeletePropagationBackground |} w3 with
                | (Returns (Some _), w4) =>
                    match Delete_ res Unscoped (GetName data)
                            {| PropagationPolicy := None |} w4 with
                    | (Returns (Some err), w5) =>
                        (Returns (Some (Wrapf err "unable to delete the requested resource")), w5)
                    | other => other
                    end
                | other => other
                end
            | other => other
            end
        | (Panics msg, w2) => (Panics msg, w2)
        end
    | (Returns (inr err), w1) => (Returns (Some err), w1)
    | (Panics msg, w1) => (Panics msg, w1)
    end.
Proof.
  intros Hc Hres. with_client w Hc.
  unfold deleteResource, clientIsNil. unfold bind at 1. cbn [oClient k8sDynamicClient].
  rewrite Hres.
  change (String.eqb "deployments" "namespaces") with false.
  change (String.eqb "deployments" "deployments") with true.
  cbn [andb]. unfold bind, ret.
  destruct (getResource res data _) as [[[data1|err]|msg] w1]; try reflexivity.
  destruct (zeroReplicas data1 w1) as [[zeroed|msg] w2]; try reflexivity.
  destruct (updateResource res zeroed w2) as [[[err|]|msg] w3]; try reflexivity.
  destruct (Delete_ _ _ _ _ w3) as [[[err|]|msg] w4]; try reflexivity.
  destruct (Delete_ _ _ _ _ w4) as [[[err'|]|msg] w5]; reflexivity.
Qed.

(** C10.  On a created client, in the deployments branch of a delete,
    once the get has returned an object, the engine asserts that its [spec] entry is a
    map.  When the entry is missing or is anything but a map, the delete
    panics at that point: it returns no error, and no update or delete
    has been called. *)
Theorem C10_spec_assertion_panics (res : GroupVersionResource)
    (data data1 : Unstructured) (w w1 : World) :
  k8sDynamicClient (oClient w) <> None ->
  Resource res = "deployments" ->
  getResource res data w = (Returns (inl data1), w1) ->
  (forall spec1, Object data1 !! "spec" <> Some (VMap spec1)) ->
  (exists msg, deleteResource res data w = (Panics msg, w1)) /\
  (exists tr, calls w1 = calls w ++ tr /\ Forall (fun c => isGet c = true) tr).
Proof.
  intros Hc Hres Hget Hspec. split.
  - rewrite deleteResource_deployments by assumption. rewrite Hget.
    unfold zeroReplicas, UnstructuredContent, panic.
    destruct (Object data1 !! "spec") as [[]|] eqn:E; try (eexists; reflexivity).
    now destruct (Hspec m).
  - with_client w Hc. revert Hget. unfold_engine.
    cbn [oClient k8sDynamicClient eventChan calls].
    repeat next_reply; intros Hget; inversion Hget; subst; cbn [calls];
      rewrite <- ?app_assoc; eexists; (split; [reflexivity | repeat constructor]).
Qed.

(** C2.  On a created client, a delete of a [deployments] resource opens
    with a get of the object.  Every update it calls carries the object
    that a get returned, with [spec.replicas] set to 0.  Whenever a delete
    call is made, an update that succeeded stands before it in the log,
    with no delete call before that update and only delete calls after
    it.  A delete that returns [nil] has made a delete call that
    succeeded.
    The log is the gets, then the updates, then the deletes, and each
    group is what follows.  The gets are the get in the namespace and,
    when it failed, the get without a namespace; when both failed the
    error of the second is returned, wrapped, and nothing else is called.
    When the object that was read has no [spec] that is a map, the delete
    panics with nothing updated and nothing deleted.  Otherwise the
    updates are there: the update of that object with [spec.replicas] set
    to 0, in its namespace, and when it failed the same update without a
    namespace; when both failed the wrapped error of the second is
    returned and nothing is deleted.  Once an update has succeeded the
    deletes are there: the delete in the namespace with background
    propagation and, when it failed, the delete without a namespace; the
    result is [nil] when one of them succeeded and the wrapped error of
    the second otherwise. *)
Theorem C2_scale_down_before_delete (res : GroupVersionResource) (data : Unstructured)
    (w : World) :
  k8sDynamicClient (oClient w) <> None ->
  Resource res = "deployments" ->
  let ns := GetNamespace data in
  let name := GetName data in
  let background := {| PropagationPolicy := Some DeletePropagationBackground |} in
  let plain := {| PropagationPolicy := None |} in
  exists out w' tr,
    deleteResource res data w = (out, w') /\
    calls w' = calls w ++ tr /\
    (exists r rest,
       tr = CallGet res (Namespaced (GetNamespace data)) (GetName data) r :: rest) /\
    (forall rs sc zeroed r, In (CallUpdate rs sc zeroed r) tr ->
       rs = res /\
       exists sc' got spec1,
         In (CallGet res sc' (GetName data) (inl got)) tr /\
         Object got !! "spec" = Some (VMap spec1) /\
         Object zeroed = <["spec" := VMap (<["replicas" := VInt 0]> spec1)]> (Object got)) /\
    (forall c, In c tr -> isDelete c = true ->
       exists pre post sc zeroed updated,
         tr = pre ++ CallUpdate res sc zeroed (inl updated) :: post /\
         Forall (fun c' => isDelete c' = false) pre /\
         Forall (fun c' => isDelete c' = true) post /\
         In c post) /\
    (out = Returns None ->
       exists c, In c tr /\ isDelete c = true /\ succeeded c = true) /\
    (exists gets updates deletes,
       ((exists e1 e2,
           gets = [CallGet res (Namespaced ns) name (inr e1);
                   CallGet res Unscoped name (inr e2)] /\
           updates = [] /\ deletes = [] /\
           out = Returns (Some (Wrapf e2
             "unable to retrieve the resource with a matching name, while attempting to apply the config"))) \/
        (exists got,
           (gets = [CallGet res (Namespaced ns) name (inl got)] \/
            exists e1, gets = [CallGet res (Namespaced ns) name (inr e1);
                               CallGet res Unscoped name (inl got)]) /\
           (((forall spec1, Object got !! "spec" <> Some (VMap spec1)) /\
             updates = [] /\ deletes = [] /\ exists msg, out = Panics msg) \/
            (exists spec1,
               Object got !! "spec" = Some (VMap spec1) /\
               let zeroed :=
                 {| Object := <["spec" := VMap (<["replicas" := VInt 0]> spec1)]>
                                (Object got) |} in
               ((exists e3 e4,
                   updates = [CallUpdate res (Namespaced (GetNamespace zeroed)) zeroed (inr e3);
                              CallUpdate res Unscoped zeroed (inr e4)] /\
                   deletes = [] /\
                   out = Returns (Some (Wrapf e4
                     "unable to update resource with the given name, while attempting to apply the config"))) \/
                (((exists updated,
                     updates = [CallUpdate res (Namespaced (GetNamespace zeroed)) zeroed
                                  (inl updated)]) \/
                  (exists e3 updated,
                     updates = [CallUpdate res (Namespaced (GetNamespace zeroed)) zeroed
                                  (inr e3);
                                CallUpdate res Unscoped zeroed (inl updated)])) /\
                 ((deletes = [CallDelete res (Namespaced ns) name background None] /\
                   out = Returns None) \/
                  (exists e5,
                     deletes = [CallDelete res (Namespaced ns) name background (Some e5);
                                CallDelete res Unscoped name plain None] /\
                     out = Returns None) \/
                  (exists e5 e6,
                     deletes = [CallDelete res (Namespaced ns) name background (Some e5);
                                CallDelete res Unscoped name plain (Some e6)] /\
                     out = Returns (Some (Wrapf e6
                       "unable to delete the requested resource"))))))))))  /\
       tr = gets ++ updates ++ deletes).
Proof.
  intros Hc Hres ns name background plain. with_client w Hc.
  unfold_engine. fold ns. fold name. cbn [oClient k8sDynamicClient eventChan calls].
  rewrite Hres.
  change (String.eqb "deployments" "namespaces") with false.
  change (String.eqb "deployments" "deployments") with true.
  cbn [andb oClient k8sDynamicClient eventChan calls].
  repeat (first [ next_reply
                | match goal with
                  | |- context [Object ?u !! "spec"] =>
                      let E := fresh "Espec" in
                      destruct (Object u !! "spec") as [[]|] eqn:E
                  end; cbn [oClient k8sDynamicClient eventChan calls] ]);
    give_trace.
  all: split; [do 2 eexists; reflexivity|].
  all: split; [intros rs sc zeroed r Hin; pick_call Hin; try discriminate Hin;
               inversion Hin; subst; (split; [reflexivity|]);
               do 3 eexists; cbn [In];
               (split; [first [ left; reflexivity | right; left; reflexivity ]|]);
               (split; [eassumption | reflexivity])|].
  all: split; [|split;
                [first [ intros Hout; discriminate Hout
                      | intros _; eexists; cbn [In];
                        first [ split; [left; reflexivity | split; reflexivity]
                              | split; [right; left; reflexivity | split; reflexivity]
                              | split; [do 2 right; left; reflexivity | split; reflexivity]
                              | split; [do 3 right; left; reflexivity | split; reflexivity]
                              | split; [do 4 right; left; reflexivity | split; reflexivity]
                              | split; [do 5 right; left; reflexivity | split; reflexivity]
                              ] ]
                | settle_case ]].
  all: intros c Hin Hdel; pick_call Hin; subst c; try discriminate Hdel.
  all: match goal with
       | |- exists pre post sc zeroed updated, ?tr = _ /\ _ =>
           first [ exists (firstn 1 tr), (skipn 2 tr); cbn [firstn skipn];
                   do 3 eexists; split; [reflexivity|]
                 | exists (firstn 2 tr), (skipn 3 tr); cbn [firstn skipn];
                   do 3 eexists; split; [reflexivity|]
                 | exists (firstn 3 tr), (skipn 4 tr); cbn [firstn skipn];
                   do 3 eexists; split; [reflexivity|] ]
       end.
  all: split; [repeat constructor|].
  all: split; [repeat constructor|].
  all: cbn [In]; tauto.
Qed.

End ApplyEngine.

(** ** The decoder front end and the per-document loop *)

Section DocumentLoop.

Context {Store : Type} `{DynamicInterface Store}.
Variable YAMLToJSON : string -> string + error.
Variable UnmarshalJSON : string -> Unstructured + error.

(** C9.  On a created client, a text that [YAMLToJSON] converts to at
    most 5 bytes (the [null] of an empty document) is skipped:
    [applyManifestPayload] returns [nil] and leaves the world as it was,
    so no call is made. *)
Theorem C9_null_document_skipped (namespace newBytes jsonBytes : string) (delete : bool)
    (w : World) :
  k8sDynamicClient (oClient w) <> None ->
  YAMLToJSON newBytes = inl jsonBytes ->
  (String.length jsonBytes <= 5)%nat ->
  applyManifestPayload YAMLToJSON UnmarshalJSON namespace newBytes delete w = (Returns None, w).
Proof.
  intros Hc Hjson Hlen. with_client w Hc.
  unfold applyManifestPayload, clientIsNil, bind, ret. cbn [oClient k8sDynamicClient].
  rewrite Hjson.
  destruct (Nat.ltb_spec 5 (String.length jsonBytes)) as [Hlt|_]; [lia | reflexivity].
Qed.

(** The loop over a list of segments that is given in two parts. *)
Lemma applyEach_app (pre rest : list string) (namespace : string) (delete : bool)
    (w : World) :
  applyEach YAMLToJSON UnmarshalJSON (pre ++ rest) namespace delete w =
    match applyEach YAMLToJSON UnmarshalJSON pre namespace delete w with
    | (Returns None, w1) => applyEach YAMLToJSON UnmarshalJSON rest namespace delete w1
    | other => other
    end.
Proof.
  revert w. induction pre as [|yml pre IH]; intros w; [reflexivity|].
  cbn [app applyEach].
  destruct (String.eqb (TrimSpace yml) ""); [apply IH|].
  unfold bind.
  destruct (applyManifestPayload YAMLToJSON UnmarshalJSON namespace yml delete w)
    as [[[err|]|msg] w1]; [| apply IH | reflexivity].
  destruct (delete && notFoundError err); [apply IH | reflexivity].
Qed.

(** C4.  In the loop of [applyConfigChange], let the documents before
    [yml] have gone through and let the apply of [yml] return the error
    [err].  When the operation is a delete and [err] is of the "not
    found" class, the loop goes on with the documents after [yml], and
    its result is theirs.  In every other case the loop returns [err] at
    once, in the world the failed apply left behind: the documents after
    [yml] are not touched. *)
Theorem C4_loop_on_error (payload namespace : string) (delete : bool)
    (pre post : list string) (yml : string) (err : error) (w w1 w2 : World) :
  Split payload "---" = pre ++ yml :: post ->
  applyEach YAMLToJSON UnmarshalJSON pre namespace delete w = (Returns None, w1) ->
  TrimSpace yml <> "" ->
  applyManifestPayload YAMLToJSON UnmarshalJSON namespace yml delete w1 =
    (Returns (Some err), w2) ->
  (delete = true -> notFoundError err = true ->
   applyConfigChange YAMLToJSON UnmarshalJSON payload namespace delete w =
   applyEach YAMLToJSON UnmarshalJSON post namespace delete w2) /\
  (delete = false \/ notFoundError err = false ->
   applyConfigChange YAMLToJSON UnmarshalJSON payload namespace delete w =
   (Returns (Some err), w2)).
Proof.
  intros Hsplit Hpre Hyml Hfail.
  unfold applyConfigChange. cbv zeta. rewrite Hsplit, applyEach_app, Hpre.
  cbn [applyEach]. apply String.eqb_neq in Hyml. rewrite Hyml.
  unfold bind. rewrite Hfail. split.
  - intros -> ->. reflexivity.
  - intros [-> | ->]; [reflexivity|]. now rewrite andb_false_r.
Qed.



End DocumentLoop.

(** ** The event reader *)

Section EventReader.

Context {Store : Type} {Conn : Type}.
Variable Send : EventsResponse -> Conn -> option error * Conn.

Lemma StreamEvents_add (n m : nat) (w : @Streaming Store Conn) :
  StreamEvents Send (n + m) w =
    match StreamEvents Send n w with
    | (Some err, w') => (Some err, w')
    | (None, w') => StreamEvents Send m w'
    end.
Proof.
  revert w. induction n as [|n IH]; intros w; [reflexivity|].
  cbn [Nat.add StreamEvents].
  destruct (pollOnce Send w) as [[err|] w']; [reflexivity | apply IH].
Qed.

(** While the deliveries succeed, the reader takes the events off the
    channel one per pass, in order. *)
Lemma StreamEvents_delivers (q rest : list EventsResponse) (w : @Streaming Store Conn) :
  eventChan (sClient w) = q ++ rest ->
  allDelivered Send q (stream w) = true ->
  exists w',
    StreamEvents Send (List.length q) w = (None, w') /\
    eventChan (sClient w') = rest /\
    received w' = received w ++ q /\
    senders w' = senders w.
Proof.
  revert w. induction q as [|event q IH]; intros w Hchan Hall.
  - exists w. cbn [List.length StreamEvents]. now rewrite app_nil_r.
  - cbn [List.length StreamEvents]. unfold pollOnce. rewrite Hchan. cbn [app].
    cbn [allDelivered] in Hall.
    destruct (Send event (stream w)) as [[err|] conn]; [discriminate|].
    destruct (IH {| sClient := setChan (q ++ rest) (sClient w); stream := conn;
                    senders := senders w; received := received w ++ [event] |})
      as (w' & Hrun & Hc & Hr & Hs); [reflexivity | exact Hall |].
    exists w'. cbn [received senders] in Hr, Hs.
    rewrite <- app_assoc in Hr. now repeat split.
Qed.

(** A pass of the reader takes an event out of the waiting ones only by
    a delivery that succeeds. *)
Lemma pollOnce_keeps (w : @Streaming Store Conn) :
  Permutation (inFlight w) (inFlight (snd (pollOnce Send w))) \/
  exists event q conn',
    eventChan (sClient w) = event :: q /\
    Send event (stream w) = (None, conn') /\
    Permutation (inFlight w) (event :: inFlight (snd (pollOnce Send w))).
Proof.
  unfold pollOnce, inFlight. destruct (eventChan (sClient w)) as [|event q] eqn:Hchan.
  - left. cbn [snd]. now rewrite Hchan.
  - destruct (Send event (stream w)) as [[err|] conn'] eqn:Hsend;
      cbn [snd sClient senders setChan eventChan].
    + left. rewrite app_assoc. cbn [app]. apply Permutation_cons_append.
    + right. exists event, q, conn'. split; [reflexivity|]. split; [exact Hsend|].
      reflexivity.
Qed.

(** A goroutine that runs its send loses nothing. *)
Lemma senderStep_keeps (i : nat) (w : @Streaming Store Conn) :
  Permutation (inFlight w) (inFlight (senderStep i w)).
Proof.
  unfold senderStep, inFlight. destruct (senders w !! i) as [event|] eqn:Hi; [|reflexivity].
  destruct (List.length (eventChan (sClient w)) <? eventChanCap)%nat; [|reflexivity].
  cbn [sClient senders setChan eventChan]. rewrite <- app_assoc. cbn [app].
  apply Permutation_app_head. now apply delete_Permutation.
Qed.

(** C7.  Let the reader take [event] off the channel and let its one
    delivery attempt fail.  Then [StreamEvents] returns the wrapped error
    and the event is not dropped: a goroutine holds it, and the channel
    and the goroutines together hold the same events as before.  When
    that goroutine runs, the event is at the tail of the channel, behind
    the events that were queued after it.  A reader that comes back and
    delivers those events takes the same event off the channel again.
    In every state, a pass of the reader whose delivery fails and a
    goroutine that runs its send keep all the waiting events. *)
Theorem C7_failed_delivery_requeued (w : @Streaming Store Conn)
    (event : EventsResponse) (q : list EventsResponse) (err : error) (conn' : Conn) :
  eventChan (sClient w) = event :: q ->
  (List.length (event :: q) <= eventChanCap)%nat ->
  Send event (stream w) = (Some err, conn') ->
  let w1 := snd (StreamEvents Send 1 w) in
  let w2 := senderStep (List.length (senders w)) w1 in
  fst (StreamEvents Send 1 w) = Some (Wrapf err "unable to send event") /\
  eventChan (sClient w1) = q /\
  senders w1 = senders w ++ [event] /\
  Permutation (eventChan (sClient w1) ++ senders w1) (eventChan (sClient w) ++ senders w) /\
  eventChan (sClient w2) = q ++ [event] /\
  senders w2 = senders w /\
  (allDelivered Send q (stream w2) = true ->
   received (snd (StreamEvents Send (List.length q + 1) w2)) =
     received w ++ event :: q ++ [event]) /\
  (forall w0 : @Streaming Store Conn,
     (forall event0 q0 conn0,
        eventChan (sClient w0) = event0 :: q0 -> Send event0 (stream w0) <> (None, conn0)) ->
     Permutation (inFlight w0) (inFlight (snd (pollOnce Send w0)))) /\
  (forall (i : nat) (w0 : @Streaming Store Conn),
     Permutation (inFlight w0) (inFlight (senderStep i w0))).
Proof.
  intros Hchan Hcap Hsend w1 w2.
  assert (Hw1 : StreamEvents Send 1 w =
                (Some (Wrapf err "unable to send event"),
                 {| sClient := setChan q (sClient w); stream := conn';
                    senders := senders w ++ [event];
                    received := received w ++ [event] |})).
  { cbn [StreamEvents]. unfold pollOnce. now rewrite Hchan, Hsend. }
  assert (Hw2 : w2 = {| sClient := setChan (q ++ [event]) (sClient w); stream := conn';
                        senders := senders w;
                        received := received w ++ [event] |}).
  { subst w2 w1. rewrite Hw1. cbn [snd]. unfold senderStep. cbn [senders sClient].
    rewrite list_lookup_middle by reflexivity.
    cbn [setChan eventChan]. cbn [List.length] in Hcap. unfold eventChanCap in *.
    destruct (Nat.ltb_spec (List.length q) 100) as [_|Hge]; [|lia].
    rewrite delete_middle, app_nil_r. reflexivity. }
  subst w1. rewrite Hw1. cbn [fst snd sClient senders setChan eventChan].
  repeat split.
  - rewrite Hchan, app_assoc. cbn [app]. symmetry. apply Permutation_cons_append.
  - now rewrite Hw2.
  - now rewrite Hw2.
  - intros Hall.
    destruct (StreamEvents_delivers q [event] w2) as (w3 & Hrun & Hc & Hr & _);
      [now rewrite Hw2 | exact Hall |].
    rewrite StreamEvents_add, Hrun. cbn [StreamEvents]. unfold pollOnce. rewrite Hc.
    rewrite Hw2 in Hr. cbn [received] in Hr.
    destruct (Send event (stream w3)) as [[err3|] conn3]; cbn [snd received];
      rewrite Hr, <- !app_assoc; reflexivity.
  - intros w0 Hfail. destruct (pollOnce_keeps w0) as [Hkeep|(e0 & q0 & c0 & Hc0 & Hs0 & _)];
      [exact Hkeep | now destruct (Hfail e0 q0 c0 Hc0)].
  - apply senderStep_keeps.
Qed.

End EventReader.

(** ** The engine on concrete inputs *)

Section Examples.

Example Split_yaml :
  Split ("a: 1" +:+ "---" +:+ " " +:+ "---" +:+ "b: 2") "---" = ["a: 1"; " "; "b: 2"].
Proof. reflexivity. Qed.

Example Split_leftmost : Split "a----b" "---" = ["a"; "-b"].
Proof. reflexivity. Qed.

Example TrimSpace_ex : TrimSpace "  kind: Pod  " = "kind: Pod".
Proof. reflexivity. Qed.

Example notFoundError_ex :
  notFoundError (Wrapf "pods web not found" "unable to delete the requested resource") = true.
Proof. reflexivity. Qed.

Example computedResource_deployment :
  computedResource deploymentDoc =
    {| Group := "apps"; Version := "v1"; Resource := "deployments" |}.
Proof. reflexivity. Qed.

Example computedResource_two_slashes :
  computedResource {| Object := <["apiVersion" := VString "a/b/c"]>
                                (<["kind" := VString "LogEntry"]> ∅) |} =
    {| Group := ""; Version := ""; Resource := "logentries" |}.
Proof. reflexivity. Qed.

(** Both creates fail, the get in the namespace answers, and the update
    goes out with what the get returned. *)
Example apply_falls_back_to_update :
  let w := scriptedWorld [inr "already exists"; inr "already exists";
                          inl deploymentDoc; inl deploymentDoc] in
  let res := {| Group := ""; Version := "v1"; Resource := "pods" |} in
  executeManifest podDoc "" false w =
    (Returns None,
     {| oClient := {| k8sDynamicClient := Some []; eventChan := [] |};
        calls := [CallCreate res (Namespaced "demo") podDoc (inr "already exists");
                  CallCreate res Unscoped podDoc (inr "already exists");
                  CallGet res (Namespaced "demo") "web" (inl deploymentDoc);
                  CallUpdate res (Namespaced "demo") deploymentDoc (inl deploymentDoc)] |}).
Proof. reflexivity. Qed.

(** A deployment is scaled to zero before it is deleted. *)
Example delete_scales_down_first :
  let w := scriptedWorld [inl deploymentDoc; inl deploymentDoc; inl deploymentDoc] in
  let res := {| Group := "apps"; Version := "v1"; Resource := "deployments" |} in
  let zeroed := {| Object := <["spec" := VMap (<["replicas" := VInt 0]> ∅)]>
                               (Object deploymentDoc) |} in
  executeManifest deploymentDoc "" true w =
    (Returns None,
     {| oClient := {| k8sDynamicClient := Some []; eventChan := [] |};
        calls := [CallGet res (Namespaced "demo") "web" (inl deploymentDoc);
                  CallUpdate res (Namespaced "demo") zeroed (inl deploymentDoc);
                  CallDelete res (Namespaced "demo") "web"
                    {| PropagationPolicy := Some DeletePropagationBackground |} None] |}).
Proof. vm_compute. reflexivity. Qed.

End Examples.

(** ** The theorems at concrete inputs *)

Section Instances.

Lemma C1_apply_fallback_witness :
  let w := scriptedWorld [inr "already exists"; inr "already exists";
                          inl deploymentDoc; inl deploymentDoc] in
  k8sDynamicClient (oClient w) <> None /\
  exists out w' tr,
    executeManifest podDoc "" false w = (out, w') /\
    calls w' = calls w ++ tr /\
    exists r rest,
      tr = CallCreate (computedResource podDoc) (Namespaced (GetNamespace podDoc)) podDoc r
           :: rest.
Proof.
  intros w. split; [discriminate|].
  destruct (C1_apply_fallback podDoc "" w) as (out & w' & tr & Hrun & Hlog & Hfirst & _);
    [discriminate|].
  exists out, w', tr. repeat split; assumption.
Defined.

Lemma C2_scale_down_before_delete_witness :
  let w := scriptedWorld [inl deploymentDoc; inl deploymentDoc; inl deploymentDoc] in
  let res := computedResource deploymentDoc in
  (k8sDynamicClient (oClient w) <> None /\ Resource res = "deployments") /\
  exists out w' tr,
    deleteResource res deploymentDoc w = (out, w') /\
    calls w' = calls w ++ tr /\
    exists r rest,
      tr = CallGet res (Namespaced (GetNamespace deploymentDoc)) (GetName deploymentDoc) r
           :: rest.
Proof.
  intros w res. split; [split; [discriminate | reflexivity]|].
  destruct (C2_scale_down_before_delete res deploymentDoc w)
    as (out & w' & tr & Hrun & Hlog & Hfirst & _); [discriminate | reflexivity |].
  exists out, w', tr. repeat split; assumption.
Defined.

Lemma C3_default_namespace_kept_witness :
  let w := scriptedWorld [inr "namespaces default is forbidden"] in
  let res := computedResource defaultNamespaceDoc in
  (k8sDynamicClient (oClient w) <> None /\ Resource res = "namespaces" /\
   GetName defaultNamespaceDoc = "default") /\
  deleteResource res defaultNamespaceDoc w = (Returns None, w).
Proof.
  intros w res. split; [repeat split; discriminate|].
  apply C3_default_namespace_kept; [discriminate | reflexivity | reflexivity].
Defined.

Lemma C4_loop_on_error_witness :
  let payload := "kind: Pod, name: one---kind: Pod, name: two" in
  let w := scriptedWorld [inr "pods web not found"; inr "pods web not found";
                          inl podDoc] in
  let w2 := snd (applyManifestPayload yamlAsIs (decodeTo podDoc) ""
                   "kind: Pod, name: one" true w) in
  applyConfigChange yamlAsIs (decodeTo podDoc) payload "" true w =
  applyEach yamlAsIs (decodeTo podDoc) ["kind: Pod, name: two"] "" true w2.
Proof.
  intros payload w w2.
  destruct (C4_loop_on_error yamlAsIs (decodeTo podDoc) payload "" true
              [] ["kind: Pod, name: two"] "kind: Pod, name: one"
              (Wrapf "pods web not found" "unable to delete the requested resource")
              w w w2) as [Hgo _];
    [reflexivity | reflexivity | discriminate | reflexivity |].
  apply Hgo; reflexivity.
Defined.

Lemma C5_resource_plural_witness :
  (ToLower (GetKind podDoc) <> "logentry" /\ ToLower (GetKind podDoc) <> "kubernetes") /\
  Resource (computedResource podDoc) = "pod" +:+ "s".
Proof.
  assert (H1 : ToLower (GetKind podDoc) <> "logentry") by discriminate.
  assert (H2 : ToLower (GetKind podDoc) <> "kubernetes") by discriminate.
  split; [split; assumption|].
  exact (proj1 (C5_resource_plural podDoc) H1 H2).
Defined.

Lemma C6_group_version_witness :
  Count (GetAPIVersion deploymentDoc) "/" = 1%nat /\
  GetAPIVersion deploymentDoc =
    Group (computedResource deploymentDoc) +:+ "/" +:+ Version (computedResource deploymentDoc).
Proof.
  split; [reflexivity|].
  apply (proj1 (C6_group_version deploymentDoc)). reflexivity.
Defined.

Lemma C7_failed_delivery_requeued_witness :
  let first := {| EventType_of := EventType_INFO; Summary := "Octarine deployed successfully";
                  Details := "The latest version of Octarine is now deployed." |} in
  let second := {| EventType_of := EventType_ERROR; Summary := "Error while removing Octarine";
                   Details := "not found" |} in
  let w := {| sClient := {| k8sDynamicClient := @None unit; eventChan := [first; second] |};
              stream := 1%nat; senders := []; received := [] |} in
  flakySend first (stream w) = (Some "transport is closing", O) /\
  eventChan (sClient (senderStep O (snd (StreamEvents flakySend 1 w)))) = [second; first].
Proof.
  intros first second w. split; [reflexivity|].
  destruct (C7_failed_delivery_requeued flakySend w first [second] "transport is closing" O)
    as (_ & _ & _ & _ & Htail & _); [reflexivity | cbv; lia | reflexivity |].
  exact Htail.
Defined.



Lemma C9_null_document_skipped_witness :
  let w := scriptedWorld [] in
  (k8sDynamicClient (oClient w) <> None /\ yamlAsIs "null" = inl "null" /\
   (String.length "null" <= 5)%nat) /\
  applyManifestPayload yamlAsIs (decodeTo podDoc) "demo" "null" false w = (Returns None, w).
Proof.
  intros w. split; [repeat split; [discriminate | cbv; lia]|].
  apply (C9_null_document_skipped yamlAsIs (decodeTo podDoc) "demo" "null" "null" false w);
    [discriminate | reflexivity | cbv; lia].
Defined.

Lemma C10_spec_assertion_panics_witness :
  let w := scriptedWorld [inl podDoc] in
  let res := computedResource deploymentDoc in
  exists msg w1, deleteResource res deploymentDoc w = (Panics msg, w1).
Proof.
  intros w res.
  destruct (C10_spec_assertion_panics res deploymentDoc podDoc w
              (snd (getResource res deploymentDoc w))) as [[msg Hpanic] _];
    [discriminate | reflexivity | reflexivity | |].
  - intros spec1. discriminate.
  - exists msg. eexists. exact Hpanic.
Defined.

End Instances.

(** * Further properties of the code *)

(** ** The four verbs on their own *)

Section Verbs.

Context {Store : Type} `{DynamicInterface Store}.

(** X1.  [getResource] on a created client: one get in the document's
    namespace; only when it fails, one get without a namespace.  The
    object returned is that of the call that succeeded.  An error is
    returned only when both calls fail, and it wraps the error of the
    second call: the error of the first call is dropped. *)
Theorem getResource_fallback (res : GroupVersionResource) (data : Unstructured)
    (w : World) :
  k8sDynamicClient (oClient w) <> None ->
  let ns := GetNamespace data in
  let name := GetName data in
  exists out w' tr,
    getResource res data w = (Returns out, w') /\
    calls w' = calls w ++ tr /\
    ((exists obj, tr = [CallGet res (Namespaced ns) name (inl obj)] /\ out = inl obj) \/
     (exists e1 obj,
        tr = [CallGet res (Namespaced ns) name (inr e1);
              CallGet res Unscoped name (inl obj)] /\ out = inl obj) \/
     (exists e1 e2,
        tr = [CallGet res (Namespaced ns) name (inr e1);
              CallGet res Unscoped name (inr e2)] /\
        out = inr (Wrapf e2
          "unable to retrieve the resource with a matching name, while attempting to apply the config"))).
Proof.
  intros Hc ns name. with_client w Hc.
  unfold_engine. fold ns. fold name. cbn [oClient k8sDynamicClient eventChan calls].
  repeat next_reply; give_trace.
  - left. eexists. split; reflexivity.
  - right. left. do 2 eexists. split; reflexivity.
  - right. right. do 2 eexists. split; reflexivity.
Qed.

(** X2.  [updateResource] on a created client: one update in the object's
    namespace; only when it fails, one update without a namespace, with
    the same object.  It returns [nil] exactly when one of the two calls
    succeeds, and otherwise the wrapped error of the second call. *)
Theorem updateResource_fallback (res : GroupVersionResource) (data : Unstructured)
    (w : World) :
  k8sDynamicClient (oClient w) <> None ->
  let ns := GetNamespace data in
  exists out w' tr,
    updateResource res data w = (Returns out, w') /\
    calls w' = calls w ++ tr /\
    ((exists obj, tr = [CallUpdate res (Namespaced ns) data (inl obj)] /\ out = None) \/
     (exists e1 obj,
        tr = [CallUpdate res (Namespaced ns) data (inr e1);
              CallUpdate res Unscoped data (inl obj)] /\ out = None) \/
     (exists e1 e2,
        tr = [CallUpdate res (Namespaced ns) data (inr e1);
              CallUpdate res Unscoped data (inr e2)] /\
        out = Some (Wrapf e2
          "unable to update resource with the given name, while attempting to apply the config"))).
Proof.
  intros Hc ns. with_client w Hc.
  unfold_engine. fold ns. cbn [oClient k8sDynamicClient eventChan calls].
  repeat next_reply; give_trace.
  - left. eexists. split; reflexivity.
  - right. left. do 2 eexists. split; reflexivity.
  - right. right. do 2 eexists. split; reflexivity.
Qed.

(** X3.  [createResource] on a created client: one create in the document's
    namespace; only when it fails, one create without a namespace, with
    the same document.  It returns [nil] exactly when one of the two
    calls succeeds, and otherwise the wrapped error of the second call. *)
Theorem createResource_fallback (res : GroupVersionResource) (data : Unstructured)
    (w : World) :
  k8sDynamicClient (oClient w) <> None ->
  let ns := GetNamespace data in
  exists out w' tr,
    createResource res data w = (Returns out, w') /\
    calls w' = calls w ++ tr /\
    ((exists obj, tr = [CallCreate res (Namespaced ns) data (inl obj)] /\ out = None) \/
     (exists e1 obj,
        tr = [CallCreate res (Namespaced ns) data (inr e1);
              CallCreate res Unscoped data (inl obj)] /\ out = None) \/
     (exists e1 e2,
        tr = [CallCreate res (Namespaced ns) data (inr e1);
              CallCreate res Unscoped data (inr e2)] /\
        out = Some (Wrapf e2 "unable to create the requested resource, attempting to update"))).
Proof.
  intros Hc ns. with_client w Hc.
  unfold_engine. fold ns. cbn [oClient k8sDynamicClient eventChan calls].
  repeat next_reply; give_trace.
  - left. eexists. split; reflexivity.
  - right. left. do 2 eexists. split; reflexivity.
  - right. right. do 2 eexists. split; reflexivity.
Qed.

(** X4.  [deleteResource] on a created client, for a resource that is not
    [deployments] and an object that is not the [default] namespace:
    nothing is read or updated.  The delete in the document's namespace
    asks for background propagation; only when it fails, a delete without
    a namespace follows, and this one carries no propagation policy.  The
    result is [nil] exactly when one of the two calls succeeds. *)
Theorem deleteResource_plain (res : GroupVersionResource) (data : Unstructured)
    (w : World) :
  k8sDynamicClient (oClient w) <> None ->
  Resource res <> "deployments" ->
  (Resource res <> "namespaces" \/ GetName data <> "default") ->
  let ns := GetNamespace data in
  let name := GetName data in
  let background := {| PropagationPolicy := Some DeletePropagationBackground |} in
  let plain := {| PropagationPolicy := None |} in
  exists out w' tr,
    deleteResource res data w = (Returns out, w') /\
    calls w' = calls w ++ tr /\
    ((tr = [CallDelete res (Namespaced ns) name background None] /\ out = None) \/
     (exists e1,
        tr = [CallDelete res (Namespaced ns) name background (Some e1);
              CallDelete res Unscoped name plain None] /\ out = None) \/
     (exists e1 e2,
        tr = [CallDelete res (Namespaced ns) name background (Some e1);
              CallDelete res Unscoped name plain (Some e2)] /\
        out = Some (Wrapf e2 "unable to delete the requested resource"))).
Proof.
  intros Hc Hdep Hdef ns name background plain. with_client w Hc.
  unfold_engine. fold ns. fold name. cbn [oClient k8sDynamicClient eventChan calls].
  assert (Hskip : String.eqb (Resource res) "namespaces" && String.eqb (GetName data) "default"
                  = false).
  { apply andb_false_iff. destruct Hdef as [Hn|Hn]; [left | right];
      now apply String.eqb_neq. }
  fold name in Hskip. rewrite Hskip.
  apply String.eqb_neq in Hdep. rewrite Hdep.
  cbn [oClient k8sDynamicClient eventChan calls].
  repeat next_reply; give_trace.
  - right. right. do 2 eexists. split; reflexivity.
  - right. left. eexists. split; reflexivity.
  - left. split; reflexivity.
Qed.

End Verbs.

(** ** Errors and panics of [executeManifest] *)

Section ErrorClass.

Lemma TrimRightSpace_append (a b : string) :
  TrimRightSpace b <> "" -> TrimRightSpace (a +:+ b) = a +:+ TrimRightSpace b.
Proof.
  intros Hb. induction a as [|c a IH]; [reflexivity|].
  rewrite !append_cons. cbn [TrimRightSpace]. rewrite IH.
  destruct (a +:+ TrimRightSpace b) eqn:E; [|reflexivity].
  destruct a; [now rewrite append_nil_l in E | now rewrite append_cons in E].
Qed.

Lemma TrimLeftSpace_append (a b : string) :
  exists p, TrimLeftSpace (a +:+ b) = p +:+ TrimLeftSpace b.
Proof.
  induction a as [|c a [p IH]]; [now exists ""|].
  rewrite append_cons. cbn [TrimLeftSpace]. destruct (isSpace c).
  - now exists p.
  - destruct (TrimLeftSpace_suffix b) as [lead Hlead].
    exists (String c a +:+ lead). rewrite append_assoc, <- Hlead.
    now rewrite append_cons.
Qed.

(** Text put in front of a text that is not blank stays in front of it
    when both are trimmed. *)
Lemma TrimSpace_append (a b : string) :
  TrimSpace b <> "" -> exists p, TrimSpace (a +:+ b) = p +:+ TrimSpace b.
Proof.
  intros Hb. unfold TrimSpace in *.
  destruct (TrimLeftSpace_append a b) as [p Hp].
  exists p. rewrite Hp. now apply TrimRightSpace_append.
Qed.

Lemma HasSuffix_append (p t suffix : string) :
  HasSuffix t suffix = true -> HasSuffix (p +:+ t) suffix = true.
Proof.
  rewrite !HasSuffix_iff. intros [a ->]. exists (p +:+ a). now rewrite append_assoc.
Qed.

Lemma HasSuffix_not_nil (t suffix : string) :
  suffix <> "" -> HasSuffix t suffix = true -> t <> "".
Proof.
  intros Hs Ht ->. apply HasSuffix_iff in Ht as [a Ha].
  destruct a; [rewrite append_nil_l in Ha; congruence | now rewrite append_cons in Ha].
Qed.

(** An error of the not-found class stays in that class under
    [errors.Wrapf]: the test of [applyConfigChange] sees through the
    context that the verbs put in front of the cluster's message. *)
Lemma notFoundError_Wrapf (err : error) (message : string) :
  notFoundError err = true -> notFoundError (Wrapf err message) = true.
Proof.
  unfold notFoundError, Wrapf. intros Hnf.
  assert (Hne : TrimSpace err <> "").
  { apply orb_prop in Hnf as [Hnf|Hnf];
      eapply HasSuffix_not_nil; try exact Hnf; discriminate. }
  rewrite <- append_assoc.
  destruct (TrimSpace_append (message +:+ ": ") err Hne) as [p ->].
  apply orb_prop in Hnf as [Hnf|Hnf]; apply orb_true_iff; [left | right];
    now apply HasSuffix_append.
Qed.

End ErrorClass.

Ltac delete_branches res data :=
  destruct (String.eqb (Resource res) "namespaces" && String.eqb (GetName data) "default");
  [|destruct (String.eqb (Resource res) "deployments") eqn:?Edep];
  cbn [oClient k8sDynamicClient eventChan calls].

Ltac spec_entry :=
  match goal with
  | |- context [Object ?u !! "spec"] =>
      let E := fresh "Espec" in
      destruct (Object u !! "spec") as [[]|] eqn:E
  end; cbn [oClient k8sDynamicClient eventChan calls].

(** Name the last call of a log that is written out. *)
Ltac give_last_call :=
  do 4 eexists; split;
  [cbn [calls]; rewrite (List.app_assoc _ _ [_]); f_equal;
   first [rewrite <- ?List.app_assoc; reflexivity | symmetry; apply List.app_nil_r]|].

Section ManifestOutcome.

Context {Store : Type} `{DynamicInterface Store}.

(** X5.  Every error that [executeManifest] returns on a created client is
    the error of the last call it made, wrapped once; errors of earlier
    calls are dropped.  So it is of the not-found class whenever the
    error of that last call is. *)
Theorem executeManifest_error_wraps_last_call (data : Unstructured)
    (namespace : string) (delete : bool) (err : error) (w w' : World) :
  k8sDynamicClient (oClient w) <> None ->
  executeManifest data namespace delete w = (Returns (Some err), w') ->
  exists tr c e message,
    calls w' = calls w ++ tr ++ [c] /\
    failure c = Some e /\
    err = Wrapf e message /\
    (notFoundError e = true -> notFoundError err = true).
Proof.
  intros Hc. with_client w Hc. unfold executeManifest.
  generalize (withNamespace namespace data). clear data. intros data.
  generalize (computedResource data). intros res.
  destruct delete; unfold_engine; cbn [oClient k8sDynamicClient eventChan calls].
  - delete_branches res data;
      repeat (first [next_reply | spec_entry]);
      intros Hrun; inversion Hrun; subst; give_last_call;
      (split; [reflexivity | split; [reflexivity | apply notFoundError_Wrapf]]).
  - repeat next_reply;
      intros Hrun; inversion Hrun; subst; give_last_call;
      (split; [reflexivity | split; [reflexivity | apply notFoundError_Wrapf]]).
Qed.

Lemma executeManifest_panic_inv (data : Unstructured)
    (namespace : string) (delete : bool) (msg : string) (w w' : World) :
  k8sDynamicClient (oClient w) <> None ->
  executeManifest data namespace delete w = (Panics msg, w') ->
  delete = true /\
  Resource (computedResource (withNamespace namespace data)) = "deployments".
Proof.
  intros Hc. with_client w Hc. unfold executeManifest.
  generalize (withNamespace namespace data). clear data. intros data.
  generalize (computedResource data). intros res.
  destruct delete; unfold_engine; cbn [oClient k8sDynamicClient eventChan calls].
  - delete_branches res data;
      repeat (first [next_reply | spec_entry]);
      intros Hrun; inversion Hrun; subst;
      (split; [reflexivity | now apply String.eqb_eq]).
  - repeat next_reply; intros Hrun; inversion Hrun.
Qed.

(** X6.  On a created client [executeManifest] panics in one place only: the
    delete of a [deployments] resource.  An apply never panics. *)
Theorem executeManifest_panics_only_in_scale_down (data : Unstructured)
    (namespace : string) (delete : bool) (msg : string) (w w' : World) :
  k8sDynamicClient (oClient w) <> None ->
  executeManifest data namespace delete w = (Panics msg, w') ->
  delete = true /\
  Resource (computedResource (withNamespace namespace data)) = "deployments".
Proof. apply executeManifest_panic_inv. Qed.

(** [executeManifest] leaves a created client created. *)
Lemma executeManifest_keeps_client (data : Unstructured) (namespace : string)
    (delete : bool) (w : World) :
  k8sDynamicClient (oClient w) <> None ->
  k8sDynamicClient (oClient (snd (executeManifest data namespace delete w))) <> None.
Proof.
  intros Hc. with_client w Hc. unfold executeManifest.
  generalize (withNamespace namespace data). clear data. intros data.
  generalize (computedResource data). intros res.
  destruct delete; unfold_engine; cbn [oClient k8sDynamicClient eventChan calls].
  - delete_branches res data;
      repeat (first [next_reply | spec_entry]); discriminate.
  - repeat next_reply; discriminate.
Qed.

End ManifestOutcome.

(** ** Payloads: guards, decoding, lists *)

Section Payloads.

Context {Store : Type} `{DynamicInterface Store}.
Variable YAMLToJSON : string -> string + error.
Variable UnmarshalJSON : string -> Unstructured + error.

Lemma applyEach_blank (yamls : list string) (namespace : string) (delete : bool)
    (w : World) :
  existsb nonBlank yamls = false ->
  applyEach YAMLToJSON UnmarshalJSON yamls namespace delete w = (Returns None, w).
Proof.
  induction yamls as [|yml yamls IH]; intros Hb; [reflexivity|].
  cbn [existsb] in Hb. apply orb_false_elim in Hb as [Hyml Hrest].
  cbn [applyEach]. unfold nonBlank in Hyml. apply negb_false_iff in Hyml.
  rewrite Hyml. now apply IH.
Qed.

(** X7.  A payload with nothing but blank segments (the empty payload is
    one) is applied or deleted without a call and without an error,
    whether the client has been created or not. *)
Theorem applyConfigChange_blank_payload (payload namespace : string) (delete : bool)
    (w : World) :
  existsb nonBlank (Split payload "---") = false ->
  applyConfigChange YAMLToJSON UnmarshalJSON payload namespace delete w = (Returns None, w).
Proof. intros Hb. unfold applyConfigChange. now apply applyEach_blank. Qed.

Lemma applyManifestPayload_without_client (namespace newBytes : string) (delete : bool)
    (w : World) :
  k8sDynamicClient (oClient w) = None ->
  applyManifestPayload YAMLToJSON UnmarshalJSON namespace newBytes delete w =
    (Returns (Some (errors_New "mesh client has not been created")), w).
Proof.
  destruct w as [[[st|] chan] log]; cbn [oClient k8sDynamicClient]; [discriminate|].
  reflexivity.
Qed.

(** X8.  Before [CreateMeshInstance] has run, a payload with a segment that
    is not blank is refused with the error of the guard, in apply mode
    and in delete mode alike: nothing is decoded, nothing is called and
    nothing panics. *)
Theorem applyConfigChange_without_client (payload namespace : string) (delete : bool)
    (w : World) :
  k8sDynamicClient (oClient w) = None ->
  existsb nonBlank (Split payload "---") = true ->
  applyConfigChange YAMLToJSON UnmarshalJSON payload namespace delete w =
    (Returns (Some "mesh client has not been created"), w).
Proof.
  intros Hc. unfold applyConfigChange. cbv zeta.
  induction (Split payload "---") as [|yml yamls IH]; intros Hb; [discriminate|].
  cbn [existsb] in Hb. cbn [applyEach].
  destruct (String.eqb (TrimSpace yml) "") eqn:Eb.
  - unfold nonBlank in Hb. rewrite Eb in Hb. now apply IH.
  - unfold bind. rewrite (applyManifestPayload_without_client _ _ _ _ Hc).
    change (notFoundError (errors_New "mesh client has not been created")) with false.
    now rewrite andb_false_r.
Qed.

(** X9.  A document that cannot be decoded makes no call: the error of
    [YAMLToJSON], as that of [UnmarshalJSON], comes back wrapped once and
    the world is as it was. *)
Theorem applyManifestPayload_decode_error (namespace newBytes : string) (delete : bool)
    (w : World) :
  k8sDynamicClient (oClient w) <> None ->
  (forall err, YAMLToJSON newBytes = inr err ->
     applyManifestPayload YAMLToJSON UnmarshalJSON namespace newBytes delete w =
       (Returns (Some (Wrapf err "unable to convert yaml to json")), w)) /\
  (forall jsonBytes err,
     YAMLToJSON newBytes = inl jsonBytes ->
     (5 < String.length jsonBytes)%nat ->
     UnmarshalJSON jsonBytes = inr err ->
     applyManifestPayload YAMLToJSON UnmarshalJSON namespace newBytes delete w =
       (Returns (Some (Wrapf err "unable to unmarshal json created from yaml")), w)).
Proof.
  intros Hc. with_client w Hc.
  unfold applyManifestPayload, clientIsNil, bind, ret. cbn [oClient k8sDynamicClient].
  split.
  - intros err ->. reflexivity.
  - intros jsonBytes err -> Hlen ->.
    apply Nat.ltb_lt in Hlen. now rewrite Hlen.
Qed.

Lemma applyConfigChange_delete_error_class (payload namespace : string)
    (err : error) (w w' : World) :
  applyConfigChange YAMLToJSON UnmarshalJSON payload namespace true w =
    (Returns (Some err), w') ->
  notFoundError err = false.
Proof.
  unfold applyConfigChange. cbv zeta. revert w.
  induction (Split payload "---") as [|yml yamls IH]; intros w; [discriminate|].
  cbn [applyEach].
  destruct (String.eqb (TrimSpace yml) ""); [apply IH|].
  unfold bind.
  destruct (applyManifestPayload YAMLToJSON UnmarshalJSON namespace yml true w)
    as [[[e|]|msg] w1]; [| apply IH | discriminate].
  cbn [andb]. destruct (notFoundError e) eqn:Ee; [apply IH|].
  intros Hrun. inversion Hrun. now subst.
Qed.

(** X10.  In delete mode the loop never reports an error of the not-found
    class: whatever error [applyConfigChange] returns has failed the test
    of lines 420-421. *)
Theorem applyConfigChange_delete_hides_not_found (payload namespace : string)
    (err : error) (w w' : World) :
  applyConfigChange YAMLToJSON UnmarshalJSON payload namespace true w =
    (Returns (Some err), w') ->
  notFoundError err = false.
Proof. apply applyConfigChange_delete_error_class. Qed.

(** The loop of [EachListItem] over a list that is given in two parts. *)
Lemma eachItem_app (fn : Unstructured -> @Go Store (option error)) (pre rest : list value)
    (w : World) :
  eachItem fn (pre ++ rest) w =
    match eachItem fn pre w with
    | (Returns None, w1) => eachItem fn rest w1
    | other => other
    end.
Proof.
  revert w. induction pre as [|item pre IH]; intros w; [reflexivity|].
  cbn [app eachItem]. destruct item; try reflexivity.
  unfold bind. destruct (fn {| Object := m |} w) as [[[err|]|msg] w1];
    [reflexivity | apply IH | reflexivity].
Qed.

Lemma applyManifestPayload_list (namespace newBytes jsonBytes : string) (delete : bool)
    (data : Unstructured) (items : list value) (w : World) :
  k8sDynamicClient (oClient w) <> None ->
  YAMLToJSON newBytes = inl jsonBytes ->
  (5 < String.length jsonBytes)%nat ->
  UnmarshalJSON jsonBytes = inl data ->
  Object data !! "items" = Some (VList items) ->
  applyManifestPayload YAMLToJSON UnmarshalJSON namespace newBytes delete w =
    eachItem (fun dataL => executeManifest dataL namespace delete) items w.
Proof.
  intros Hc Hjson Hlen Hdata Hitems. with_client w Hc.
  unfold applyManifestPayload, clientIsNil, bind, ret. cbn [oClient k8sDynamicClient].
  rewrite Hjson. apply Nat.ltb_lt in Hlen. rewrite Hlen, Hdata.
  unfold IsList, EachListItem. now rewrite Hitems.
Qed.

(** X11.  A decoded list is applied item by item, and the first item that
    fails ends it: the error of that item is the result, and the items
    behind it are not touched.  In delete mode, when that error is of the
    not-found class, the loop of [applyConfigChange] goes on to the next
    segment: the items behind the failed one are skipped and no error
    tells of it. *)
Theorem list_stops_at_failed_item (namespace newBytes jsonBytes : string)
    (delete : bool) (data : Unstructured) (pre post : list value)
    (child : gmap string value) (err : error) (rest : list string) (w w1 w2 : World) :
  k8sDynamicClient (oClient w) <> None ->
  TrimSpace newBytes <> "" ->
  YAMLToJSON newBytes = inl jsonBytes ->
  (5 < String.length jsonBytes)%nat ->
  UnmarshalJSON jsonBytes = inl data ->
  Object data !! "items" = Some (VList (pre ++ VMap child :: post)) ->
  eachItem (fun dataL => executeManifest dataL namespace delete) pre w = (Returns None, w1) ->
  executeManifest {| Object := child |} namespace delete w1 = (Returns (Some err), w2) ->
  applyManifestPayload YAMLToJSON UnmarshalJSON namespace newBytes delete w =
    (Returns (Some err), w2) /\
  (delete = true -> notFoundError err = true ->
   applyEach YAMLToJSON UnmarshalJSON (newBytes :: rest) namespace delete w =
   applyEach YAMLToJSON UnmarshalJSON rest namespace delete w2).
Proof.
  intros Hc Hyml Hjson Hlen Hdata Hitems Hpre Hfail.
  assert (Hrun : applyManifestPayload YAMLToJSON UnmarshalJSON namespace newBytes delete w =
                 (Returns (Some err), w2)).
  { rewrite (applyManifestPayload_list _ _ _ _ _ _ _ Hc Hjson Hlen Hdata Hitems).
    rewrite eachItem_app, Hpre. cbn [eachItem]. unfold bind. now rewrite Hfail. }
  split; [exact Hrun|].
  intros -> Hnf. cbn [applyEach]. apply String.eqb_neq in Hyml. rewrite Hyml.
  unfold bind. rewrite Hrun. cbn [andb]. now rewrite Hnf.
Qed.

(** X12.  An item of a decoded list that is not an object ends the list with
    an error; the items before it have been applied, the items behind it
    are not touched. *)
Theorem list_stops_at_non_object (namespace newBytes jsonBytes : string)
    (delete : bool) (data : Unstructured) (pre post : list value) (bad : value)
    (w w1 : World) :
  k8sDynamicClient (oClient w) <> None ->
  YAMLToJSON newBytes = inl jsonBytes ->
  (5 < String.length jsonBytes)%nat ->
  UnmarshalJSON jsonBytes = inl data ->
  Object data !! "items" = Some (VList (pre ++ bad :: post)) ->
  (forall child, bad <> VMap child) ->
  eachItem (fun dataL => executeManifest dataL namespace delete) pre w = (Returns None, w1) ->
  applyManifestPayload YAMLToJSON UnmarshalJSON namespace newBytes delete w =
    (Returns (Some "items member is not an object: map[string]interface {}"), w1).
Proof.
  intros Hc Hjson Hlen Hdata Hitems Hbad Hpre.
  rewrite (applyManifestPayload_list _ _ _ _ _ _ _ Hc Hjson Hlen Hdata Hitems).
  rewrite eachItem_app, Hpre. cbn [eachItem].
  destruct bad; try reflexivity. now destruct (Hbad m).
Qed.

Lemma eachItem_apply_returns (namespace : string) (items : list value) (w : World) :
  k8sDynamicClient (oClient w) <> None ->
  exists r w',
    eachItem (fun dataL => executeManifest dataL namespace false) items w = (Returns r, w').
Proof.
  revert w. induction items as [|item items IH]; intros w Hc.
  - do 2 eexists. reflexivity.
  - cbn [eachItem]. destruct item; try (do 2 eexists; reflexivity).
    unfold bind.
    pose proof (executeManifest_keeps_client {| Object := m |} namespace false w Hc) as Hk.
    destruct (executeManifest {| Object := m |} namespace false w) as [[[err|]|msg] w1] eqn:E.
    + do 2 eexists. reflexivity.
    + apply IH. exact Hk.
    + now destruct (executeManifest_panic_inv _ _ _ _ _ _ Hc E).
Qed.

(** X13.  In apply mode [applyConfigChange] never panics, whatever the payload,
    the decoders and the cluster do and whether the client has been
    created or not: it always returns, with [nil] or with an error. *)
Theorem applyConfigChange_apply_never_panics (payload namespace : string) (w : World) :
  exists r w',
    applyConfigChange YAMLToJSON UnmarshalJSON payload namespace false w = (Returns r, w').
Proof.
  unfold applyConfigChange. cbv zeta. revert w.
  induction (Split payload "---") as [|yml yamls IH]; intros w.
  - do 2 eexists. reflexivity.
  - cbn [applyEach]. destruct (String.eqb (TrimSpace yml) ""); [apply IH|].
    unfold bind.
    assert (Hret : exists r w1,
              applyManifestPayload YAMLToJSON UnmarshalJSON namespace yml false w =
                (Returns r, w1)).
    { unfold applyManifestPayload, clientIsNil, bind, ret.
      destruct (k8sDynamicClient (oClient w)) eqn:Hc; [|do 2 eexists; reflexivity].
      assert (Hc' : k8sDynamicClient (oClient w) <> None) by congruence.
      destruct (YAMLToJSON yml) as [jsonBytes|e]; [|do 2 eexists; reflexivity].
      destruct (5 <? String.length jsonBytes)%nat; [|do 2 eexists; reflexivity].
      destruct (UnmarshalJSON jsonBytes) as [data|e]; [|do 2 eexists; reflexivity].
      destruct (IsList data).
      - unfold EachListItem.
        destruct (Object data !! "items") as [[]|]; try (do 2 eexists; reflexivity).
        now apply eachItem_apply_returns.
      - destruct (executeManifest data namespace false w) as [[r|msg] w1] eqn:E;
          [do 2 eexists; reflexivity|].
        now destruct (executeManifest_panic_inv _ _ _ _ _ _ Hc' E). }
    destruct Hret as (r & w1 & ->). destruct r as [err|]; [|apply IH].
    cbn [andb]. do 2 eexists. reflexivity.
Qed.

End Payloads.

(** ** The resolver at its edges *)

Section ResolverEdges.

(** X14.  The caller's namespace, when it is not empty, becomes the
    namespace of the document, as long as the document's [metadata] is a
    map or is missing; the name and the resource coordinate stay as they
    were.  When [metadata] is there but is not a map, the document goes
    on unchanged: the override is dropped without an error. *)
Theorem withNamespace_overrides (namespace : string) (data : Unstructured) :
  namespace <> "" ->
  ((forall v, Object data !! "metadata" = Some v -> exists m, v = VMap m) ->
   GetNamespace (withNamespace namespace data) = namespace /\
   GetName (withNamespace namespace data) = GetName data /\
   computedResource (withNamespace namespace data) = computedResource data) /\
  (forall v, Object data !! "metadata" = Some v -> (forall m, v <> VMap m) ->
   withNamespace namespace data = data).
Proof.
  intros Hns. unfold withNamespace. apply String.eqb_neq in Hns. rewrite Hns.
  apply String.eqb_neq in Hns.
  unfold SetNamespace. destruct namespace as [|c namespace]; [congruence|].
  cbn [setNestedFieldNoCopy]. split.
  - intros Hmap. split; [|split].
    + unfold GetNamespace, getNestedString.
      destruct (Object data !! "metadata") as [v|] eqn:Em.
      * destruct (Hmap v eq_refl) as [m ->]. cbn [option_map Object NestedFieldNoCopy].
        now rewrite !lookup_insert_eq.
      * cbn [option_map Object NestedFieldNoCopy]. now rewrite !lookup_insert_eq.
    + unfold GetName, getNestedString.
      destruct (Object data !! "metadata") as [v|] eqn:Em.
      * destruct (Hmap v eq_refl) as [m ->]. cbn [option_map Object NestedFieldNoCopy].
        rewrite lookup_insert_eq, Em. now rewrite lookup_insert_ne by discriminate.
      * cbn [option_map Object NestedFieldNoCopy].
        rewrite lookup_insert_eq, Em. now rewrite lookup_insert_ne by discriminate.
    + pose proof (computedResource_withNamespace (String c namespace) data) as Hres.
      unfold withNamespace, SetNamespace in Hres.
      apply String.eqb_neq in Hns. rewrite Hns in Hres. exact Hres.
  - intros v Em Hnot. rewrite Em. destruct v; try reflexivity. now destruct (Hnot m).
Qed.

(** X15.  A document without a [kind] that is a string goes to the resource
    [s], and one without an [apiVersion] that is a string has an empty
    group and an empty version: nothing is checked and no error is
    raised. *)
Theorem computedResource_of_untyped_document (data : Unstructured) :
  ((forall s, Object data !! "kind" <> Some (VString s)) ->
   Resource (computedResource data) = "s") /\
  ((forall s, Object data !! "apiVersion" <> Some (VString s)) ->
   Group (computedResource data) = "" /\ Version (computedResource data) = "").
Proof.
  split.
  - intros Hk. rewrite computedResource_Resource.
    assert (GetKind data = "") as ->; [|reflexivity].
    unfold GetKind, getNestedString. cbn [NestedFieldNoCopy].
    destruct (Object data !! "kind") as [[]|] eqn:E; try reflexivity.
    now destruct (Hk s).
  - intros Ha. unfold computedResource.
    assert (GetAPIVersion data = "") as ->; [|split; reflexivity].
    unfold GetAPIVersion, getNestedString. cbn [NestedFieldNoCopy].
    destruct (Object data !! "apiVersion") as [[]|] eqn:E; try reflexivity.
    now destruct (Ha s).
Qed.

End ResolverEdges.

(** ** The reader, pass after pass *)

Section ReaderRuns.

Context {Store : Type} {Conn : Type}.
Variable Send : EventsResponse -> Conn -> option error * Conn.

(** X16.  While the channel is empty the reader goes on polling: after any
    number of passes it has not returned, has sent nothing and has
    changed nothing. *)
Theorem StreamEvents_idle (cycles : nat) (w : @Streaming Store Conn) :
  eventChan (sClient w) = [] ->
  StreamEvents Send cycles w = (None, w).
Proof.
  intros Hchan. induction cycles as [|n IH]; [reflexivity|].
  cbn [StreamEvents]. unfold pollOnce. now rewrite Hchan.
Qed.

Lemma StreamEvents_running_inv (q rest : list EventsResponse)
    (w w1 : @Streaming Store Conn) :
  eventChan (sClient w) = q ++ rest ->
  StreamEvents Send (List.length q) w = (None, w1) ->
  eventChan (sClient w1) = rest /\
  received w1 = received w ++ q /\
  senders w1 = senders w.
Proof.
  revert w w1. induction q as [|e q IH]; intros w w1 Hchan Hrun.
  - cbn [List.length StreamEvents] in Hrun. injection Hrun as <-.
    now rewrite app_nil_r.
  - cbn [List.length StreamEvents] in Hrun. unfold pollOnce in Hrun.
    rewrite Hchan in Hrun. cbn [app] in Hrun.
    destruct (Send e (stream w)) as [[e'|] conn]; [discriminate|].
    apply IH in Hrun as (Hc & Hr & Hs); [|reflexivity].
    cbn [received senders] in Hr, Hs. rewrite <- app_assoc in Hr. now repeat split.
Qed.

(** X17.  The reader delivers in the order of the channel and stops at the
    first delivery that fails.  When it is still running after as many
    passes as there are events in front of [event], those events have
    been taken off in order; when the delivery of [event] then fails, the
    reader returns the wrapped error, a goroutine holds [event], the
    events behind it are still in the channel, and further passes change
    nothing. *)
Theorem StreamEvents_stops_at_first_failure (w w1 : @Streaming Store Conn)
    (q rest : list EventsResponse) (event : EventsResponse) (err : error) (conn' : Conn)
    (more : nat) :
  eventChan (sClient w) = q ++ event :: rest ->
  StreamEvents Send (List.length q) w = (None, w1) ->
  Send event (stream w1) = (Some err, conn') ->
  exists w2,
    StreamEvents Send (List.length q + S more) w =
      (Some (Wrapf err "unable to send event"), w2) /\
    eventChan (sClient w2) = rest /\
    senders w2 = senders w ++ [event] /\
    received w2 = received w ++ q ++ [event].
Proof.
  intros Hchan Hrun Hsend.
  destruct (StreamEvents_running_inv q (event :: rest) w w1 Hchan Hrun) as (Hc & Hr & Hs).
  eexists. split.
  - rewrite StreamEvents_add, Hrun. cbn [StreamEvents]. unfold pollOnce.
    rewrite Hc, Hsend. reflexivity.
  - cbn [sClient senders received setChan eventChan].
    rewrite Hr, Hs, <- app_assoc. now repeat split.
Qed.

End ReaderRuns.

(** ** Opting a namespace into injection *)

Ltac reduce_workflow :=
  cbv beta iota zeta
      delta [oClient k8sDynamicClient eventChan calls world octarineDataplaneNs].

Ltac unfold_workflow :=
  unfold opBind, opRet, liftGo, dataplaneNs, setDataplaneNs;
  cbn [world octarineDataplaneNs].

Section AutoInjection.

Context {Store : Type} `{DynamicInterface Store}.

Lemma GetName_SetName_empty (name : string) :
  GetName (SetName name {| Object := ∅ |}) = name.
Proof. destruct name; reflexivity. Qed.

Lemma GetNamespace_SetName_empty (name : string) :
  GetNamespace (SetName name {| Object := ∅ |}) = "".
Proof. destruct name; reflexivity. Qed.

Lemma secret_query_name (dpNs : string) :
  GetName (SetNamespace dpNs (SetName "docker-registry-secret" {| Object := ∅ |})) =
  "docker-registry-secret".
Proof. destruct dpNs; reflexivity. Qed.

Lemma secret_query_namespace (dpNs : string) :
  GetNamespace (SetNamespace dpNs (SetName "docker-registry-secret" {| Object := ∅ |})) =
  dpNs.
Proof. destruct dpNs; reflexivity. Qed.

(** One call of a log that is written out, and that succeeded. *)
Ltac some_success :=
  eexists; cbn [In];
  first [ split; [left; reflexivity | reflexivity]
        | split; [right; left; reflexivity | reflexivity]
        | split; [do 2 right; left; reflexivity | reflexivity] ].

Ltac after_success :=
  let Hne := fresh "Hne" in
  intros Hne; first [ now destruct Hne | some_success ].

Ltac fetched_before :=
  cbn [In]; first [ left; reflexivity | right; left; reflexivity ].

Ltac scope_is := first [ left; reflexivity | right; reflexivity ].

(** The calls behind the old log, as a list that is written out. *)
Ltac trace_of L :=
  match L with
  | ?L' ++ [?c] => let t := trace_of L' in constr:(t ++ [c])
  | _ => constr:(@nil StoreCall)
  end.

Ltac last_of l :=
  match l with
  | [?x] => x
  | _ :: ?t => last_of t
  end.

Ltac init_of l :=
  match l with
  | [_] => constr:(@nil StoreCall)
  | ?x :: ?t => let i := init_of t in constr:(x :: i)
  end.

Ltac wraps_last_call :=
  let err := fresh "err" in
  let Herr := fresh "Herr" in
  intros err Herr;
  first [ discriminate Herr
        | inversion Herr; subst; cbn [app];
          match goal with
          | |- exists pre c e message, ?l = _ /\ _ =>
              let i := init_of l in
              let x := last_of l in
              exists i, x; do 2 eexists;
              split; [reflexivity | split; reflexivity]
          end ].

Ltac created_iff :=
  split;
  [ let Hout := fresh "Hout" in
    intros Hout; first [ discriminate Hout | some_success ]
  | let c := fresh "c" in
    let Hin := fresh "Hin" in
    let Hs := fresh "Hs" in
    intros (c & Hin & Hs);
    first [ reflexivity | exfalso; pick_call Hin; subst c; discriminate Hs ] ].

Ltac phases_hold :=
  split; [reflexivity|];
  split; [cbn [calls world]; rewrite <- ?List.app_assoc; reflexivity|];
  split; [reflexivity|];
  split; [repeat (constructor; [do 2 eexists; split; [reflexivity | scope_is]|]);
          constructor|];
  split; [repeat (constructor; [do 4 eexists; split; [reflexivity | fetched_before]|]);
          constructor|];
  split; [repeat (constructor; [do 2 eexists; split; [reflexivity | scope_is]|]);
          constructor|];
  split; [repeat (constructor; [do 4 eexists; split; [reflexivity | fetched_before]|]);
          constructor|];
  split; [after_success|];
  split; [after_success|];
  split; [after_success|];
  split; [created_iff | wraps_last_call].

Ltac try_phases tr la lb lc :=
  let a := eval cbn [firstn] in (firstn la tr) in
  let r1 := eval cbn [skipn] in (skipn la tr) in
  let b := eval cbn [firstn] in (firstn lb r1) in
  let r2 := eval cbn [skipn] in (skipn lb r1) in
  let c := eval cbn [firstn] in (firstn lc r2) in
  let d := eval cbn [skipn] in (skipn lc r2) in
  do 2 eexists; exists a, b, c, d; solve [phases_hold].

Ltac give_phases :=
  match goal with
  | |- exists out s' gets updates reads creates, (_, ?st) = _ /\ _ =>
      let L := eval cbn [calls world] in (calls (world st)) in
      let tr := trace_of L in
      let tr := eval cbn [app] in tr in
      first [ try_phases tr 1 0 0 | try_phases tr 2 0 0
            | try_phases tr 1 1 0 | try_phases tr 1 2 0
            | try_phases tr 2 1 0 | try_phases tr 2 2 0
            | try_phases tr 1 1 1 | try_phases tr 1 1 2
            | try_phases tr 1 2 1 | try_phases tr 1 2 2
            | try_phases tr 2 1 1 | try_phases tr 2 1 2
            | try_phases tr 2 2 1 | try_phases tr 2 2 2 ]
  end.

(** X18.  [labelNamespaceForAutoInjection] against the log.  On a created
    client it returns without a panic and leaves [octarineDataplaneNs]
    alone.  Its calls come in four groups, in this order: gets of the
    namespace, updates of the namespace, gets of the secret
    [docker-registry-secret] in the dataplane namespace, creates of the
    secret; a group is only entered when a call of the group before it
    has succeeded, and nothing is ever deleted.  Every update carries a
    fetched namespace with its labels set, every create a fetched secret
    moved to the target namespace with its resource version cleared.  The
    result is [nil] exactly when a create has succeeded; an error is the
    error of the last call, wrapped once. *)
Theorem labelNamespace_steps (namespace : string) (s : Adapter) :
  k8sDynamicClient (oClient (world s)) <> None ->
  let nsRes := {| Group := ""; Version := "v1"; Resource := "namespaces" |} in
  let secretRes := {| Group := ""; Version := "v1"; Resource := "secrets" |} in
  let dpNs := octarineDataplaneNs s in
  exists out s' gets updates reads creates,
    labelNamespaceForAutoInjection namespace s = (Returns out, s') /\
    calls (world s') = calls (world s) ++ gets ++ updates ++ reads ++ creates /\
    octarineDataplaneNs s' = dpNs /\
    Forall (fun c => exists sc r,
              c = CallGet nsRes sc namespace r /\ (sc = Namespaced "" \/ sc = Unscoped)) gets /\
    Forall (fun c => exists sc fetched r sc',
              c = CallUpdate nsRes sc
                    (SetLabels {[ "octarine-injection" := "enabled" ]} fetched) r /\
              In (CallGet nsRes sc' namespace (inl fetched)) gets) updates /\
    Forall (fun c => exists sc r,
              c = CallGet secretRes sc "docker-registry-secret" r /\
              (sc = Namespaced dpNs \/ sc = Unscoped)) reads /\
    Forall (fun c => exists sc fetched r sc',
              c = CallCreate secretRes sc
                    (SetResourceVersion "" (SetNamespace namespace fetched)) r /\
              In (CallGet secretRes sc' "docker-registry-secret" (inl fetched)) reads)
           creates /\
    (updates <> [] -> exists c, In c gets /\ succeeded c = true) /\
    (reads <> [] -> exists c, In c updates /\ succeeded c = true) /\
    (creates <> [] -> exists c, In c reads /\ succeeded c = true) /\
    (out = None <-> exists c, In c creates /\ succeeded c = true) /\
    (forall err, out = Some err ->
       exists pre c e message,
         gets ++ updates ++ reads ++ creates = pre ++ [c] /\
         failure c = Some e /\ err = Wrapf e message).
Proof.
  intros Hc nsRes secretRes dpNs.
  destruct s as [w dp]. cbn [world octarineDataplaneNs] in *. subst dpNs.
  with_client w Hc.
  unfold labelNamespaceForAutoInjection. unfold_workflow. unfold_engine.
  rewrite GetName_SetName_empty, GetNamespace_SetName_empty.
  fold nsRes. fold secretRes.
  cbn [oClient k8sDynamicClient eventChan calls world octarineDataplaneNs].
  repeat (next_reply; reduce_workflow;
          rewrite ?secret_query_name, ?secret_query_namespace).
  all: give_phases.
Qed.

(** X19.  What the two writes of [labelNamespaceForAutoInjection] carry, for
    a fetched object whose [metadata] is a map.  The namespace goes back
    with the one label [octarine-injection: enabled] in place of all the
    labels it had.  The secret is moved to the target namespace and its
    resource version reads as empty; every other field of its metadata,
    its [uid] among them, and everything outside the metadata is as it
    was fetched. *)
Theorem injection_payloads (namespace : string) (fetched : Unstructured)
    (m : gmap string value) :
  Object fetched !! "metadata" = Some (VMap m) ->
  let labelled := SetLabels {[ "octarine-injection" := "enabled" ]} fetched in
  let copy := SetResourceVersion "" (SetNamespace namespace fetched) in
  NestedFieldNoCopy (VMap (Object labelled)) ["metadata"; "labels"] =
    Some (VMap {[ "octarine-injection" := VString "enabled" ]}) /\
  (forall field, field <> "labels" ->
     NestedFieldNoCopy (VMap (Object labelled)) ["metadata"; field] =
     NestedFieldNoCopy (VMap (Object fetched)) ["metadata"; field]) /\
  (forall field, field <> "metadata" -> Object labelled !! field = Object fetched !! field) /\
  (namespace <> "" -> GetNamespace copy = namespace) /\
  GetResourceVersion copy = "" /\
  (forall field, field <> "namespace" -> field <> "resourceVersion" ->
     NestedFieldNoCopy (VMap (Object copy)) ["metadata"; field] =
     NestedFieldNoCopy (VMap (Object fetched)) ["metadata"; field]) /\
  (forall field, field <> "metadata" -> Object copy !! field = Object fetched !! field).
Proof.
  intros Hm labelled copy. subst labelled copy.
  unfold SetLabels, SetResourceVersion, SetNamespace, setMetadataField,
    removeMetadataField, removeNamespaceField, GetNamespace, GetResourceVersion,
    getNestedString.
  assert (Hmeta : forall (v : value) (obj : gmap string value),
            <["metadata" := v]> obj !! "metadata" = Some v)
    by (intros; apply lookup_insert_eq).
  destruct namespace as [|c namespace];
    cbn [setNestedFieldNoCopy]; rewrite Hm;
    cbn [option_map Object NestedFieldNoCopy];
    rewrite ?Hmeta, ?Hm; cbn [Object NestedFieldNoCopy]; rewrite ?Hmeta;
    rewrite map_fmap_singleton.
  all: repeat split; try congruence.
  all: try (intros field; intros).
  all: rewrite ?lookup_insert_eq, ?lookup_delete_eq; try reflexivity.
  all: try (rewrite !lookup_insert_ne by congruence; reflexivity).
  all: try (rewrite !lookup_delete_ne by congruence;
            rewrite ?lookup_insert_ne by congruence; reflexivity).
  all: rewrite lookup_delete_ne by discriminate; now rewrite lookup_insert_eq.
Qed.

End AutoInjection.

(** ** The install units and their events *)

Section BookInfoUnit.

Context {Store : Type} `{DynamicInterface Store}.
Variable YAMLToJSON : string -> string + error.
Variable UnmarshalJSON : string -> Unstructured + error.
Variable getBookInfoAppYAML : @Op Store (string + error).

(** X20.  Removing the Book Info app, once its manifest has been read: the
    event the goroutine sends is the INFO event of a removal, or an ERROR
    event whose details are not of the not-found class.  Objects that are
    already gone never make the removal report an error. *)
Theorem bookInfo_removal_event (arReq : ApplyRuleRequest) (s s1 s' : Adapter)
    (yamlFileContents : string) (event : EventsResponse) :
  DeleteOp arReq = true ->
  getBookInfoAppYAML s = (Returns (inl yamlFileContents), s1) ->
  installBookInfoUnit YAMLToJSON UnmarshalJSON getBookInfoAppYAML arReq s =
    (Returns event, s') ->
  event = {| EventType_of := EventType_INFO;
             Summary := "Book Info app removed successfully";
             Details := "The canonical Book Info app is now removed." |} \/
  (EventType_of event = EventType_ERROR /\
   Summary event = "Error while removing the canonical Book Info App" /\
   notFoundError (Details event) = false).
Proof.
  intros Hdel Hyaml. unfold installBookInfoUnit, executeBookInfoInstall.
  rewrite Hdel. cbn [negb]. unfold_workflow. rewrite Hyaml.
  destruct (applyConfigChange YAMLToJSON UnmarshalJSON yamlFileContents
              (Namespace arReq) true (world s1)) as [[[err|]|msg] w'] eqn:Erun;
    intros Hev; inversion Hev; subst; clear Hev.
  - right. cbn [EventType_of Summary Details]. repeat split.
    eapply applyConfigChange_delete_error_class. exact Erun.
  - now left.
Qed.

(** X21.  Deploying the Book Info app: when the namespace cannot be labelled
    or the secret cannot be copied, the manifest is not read and nothing
    of it is applied; the goroutine sends the ERROR event of a
    deployment with that error as its details. *)
Theorem bookInfo_deploy_stops_at_labelling (arReq : ApplyRuleRequest) (s s1 : Adapter)
    (err : error) :
  DeleteOp arReq = false ->
  labelNamespaceForAutoInjection (Namespace arReq) s = (Returns (Some err), s1) ->
  installBookInfoUnit YAMLToJSON UnmarshalJSON getBookInfoAppYAML arReq s =
    (Returns {| EventType_of := EventType_ERROR;
                Summary := "Error while deploying the canonical Book Info App";
                Details := err |}, s1).
Proof.
  intros Hdel Hlabel. unfold installBookInfoUnit, executeBookInfoInstall.
  rewrite Hdel. cbn [negb]. unfold opBind at 1 2. rewrite Hlabel. reflexivity.
Qed.

End BookInfoUnit.

Section OctarineUnit.

Context {Store : Type} `{DynamicInterface Store}.
Variable YAMLToJSON : string -> string + error.
Variable UnmarshalJSON : string -> Unstructured + error.
Variable getOctarineYAMLs : string -> @Op Store (string + error).
Variable createCpObjects : @Op Store (option error).
Variable deleteCpObjects : @Op Store (option error).

(** X22.  Removing Octarine.  The namespace of the request, or
    [octarine-dataplane] when the request names none, is stored in
    [octarineDataplaneNs]; the manifest is asked for that namespace, on
    the client with the namespace stored; the manifest that was read is
    deleted in that namespace, and [deleteCpObjects] runs on what the
    delete has left.  When the delete of the manifest and
    [deleteCpObjects] return, the goroutine is left with the client as
    [deleteCpObjects] left it, and the event it sends is the INFO event
    of a removal when the delete of the manifest returned [nil], and
    otherwise the ERROR event of a removal with the error of that delete
    as its details, an error that is never of the not-found class.  So
    whatever event a removal sends once the manifest has been read is the
    INFO event, or an ERROR event whose details are not of the not-found
    class. *)
Theorem octarine_removal_event (arReq : ApplyRuleRequest) (s s1 : Adapter)
    (dataplaneYaml : string) :
  DeleteOp arReq = true ->
  let namespace :=
    if String.eqb (Namespace arReq) "" then "octarine-dataplane" else Namespace arReq in
  getOctarineYAMLs namespace {| world := world s; octarineDataplaneNs := namespace |} =
    (Returns (inl dataplaneYaml), s1) ->
  (forall (r : option error) (w2 : World) (cleaned : option error) (s3 : Adapter),
     applyConfigChange YAMLToJSON UnmarshalJSON dataplaneYaml namespace true (world s1) =
       (Returns r, w2) ->
     deleteCpObjects {| world := w2; octarineDataplaneNs := octarineDataplaneNs s1 |} =
       (Returns cleaned, s3) ->
     installOctarineUnit YAMLToJSON UnmarshalJSON getOctarineYAMLs createCpObjects
       deleteCpObjects arReq s =
       (Returns
          match r with
          | None => {| EventType_of := EventType_INFO;
                       Summary := "Octarine removed successfully";
                       Details := "The latest version of Octarine is now removed." |}
          | Some err => {| EventType_of := EventType_ERROR;
                           Summary := "Error while removing Octarine";
                           Details := err |}
          end, s3) /\
     (forall err, r = Some err -> notFoundError err = false)) /\
  (forall (event : EventsResponse) (s' : Adapter),
     installOctarineUnit YAMLToJSON UnmarshalJSON getOctarineYAMLs createCpObjects
       deleteCpObjects arReq s = (Returns event, s') ->
     event = {| EventType_of := EventType_INFO;
                Summary := "Octarine removed successfully";
                Details := "The latest version of Octarine is now removed." |} \/
     (EventType_of event = EventType_ERROR /\
      Summary event = "Error while removing Octarine" /\
      notFoundError (Details event) = false)).
Proof.
  intros Hdel namespace Hyaml. split.
  - intros r w2 cleaned s3 Hrun Hclean. split.
    + unfold installOctarineUnit, executeInstall.
      rewrite Hdel. subst namespace.
      destruct (String.eqb (Namespace arReq) ""); cbn [Namespace DeleteOp]; rewrite ?Hdel;
        unfold deferring; unfold_workflow; rewrite Hyaml; cbv beta iota zeta;
        rewrite Hrun; destruct r; cbv beta iota zeta; rewrite Hclean;
        cbn [DeleteOp]; rewrite ?Hdel; reflexivity.
    + intros err ->. eapply applyConfigChange_delete_error_class. exact Hrun.
  - intros event s'. unfold installOctarineUnit, executeInstall.
    rewrite Hdel. subst namespace.
    destruct (String.eqb (Namespace arReq) ""); cbn [Namespace DeleteOp]; rewrite ?Hdel;
      unfold deferring; unfold_workflow; rewrite Hyaml;
      match goal with
      | |- context [applyConfigChange ?y ?u ?p ?n true ?w] =>
          destruct (applyConfigChange y u p n true w) as [[[err|]|msg] w'] eqn:Erun
      end;
      destruct (deleteCpObjects _) as [[r|msg'] s2];
      intros Hev; inversion Hev; subst; clear Hev; rewrite ?Hdel;
      first [ now left
            | right; cbn [EventType_of Summary Details]; repeat split;
              eapply applyConfigChange_delete_error_class; exact Erun ].
Qed.

(** X23.  Removing Octarine when the manifest cannot be read: the supporting
    objects are removed all the same, after the failure, and what their
    removal returns is dropped.  The goroutine sends the ERROR event of a
    removal with the error of the manifest as its details. *)
Theorem octarine_removal_cleans_up (arReq : ApplyRuleRequest) (s s1 s2 : Adapter)
    (err : error) (r : option error) :
  DeleteOp arReq = true ->
  let namespace :=
    if String.eqb (Namespace arReq) "" then "octarine-dataplane" else Namespace arReq in
  getOctarineYAMLs namespace {| world := world s; octarineDataplaneNs := namespace |} =
    (Returns (inr err), s1) ->
  deleteCpObjects s1 = (Returns r, s2) ->
  installOctarineUnit YAMLToJSON UnmarshalJSON getOctarineYAMLs createCpObjects
    deleteCpObjects arReq s =
    (Returns {| EventType_of := EventType_ERROR;
                Summary := "Error while removing Octarine";
                Details := err |}, s2).
Proof.
  intros Hdel namespace Hyaml Hclean. unfold installOctarineUnit, executeInstall.
  rewrite Hdel. subst namespace.
  destruct (String.eqb (Namespace arReq) ""); cbn [Namespace DeleteOp]; rewrite ?Hdel;
    unfold deferring; unfold_workflow; rewrite Hyaml, Hclean; reflexivity.
Qed.

(** X24.  Deploying Octarine: when the supporting objects cannot be created,
    the manifest is not asked for and nothing is applied; the goroutine
    sends the ERROR event of a deployment with that error as its details.
    The dataplane namespace has been stored by then. *)
Theorem octarine_deploy_stops_at_provisioning (arReq : ApplyRuleRequest) (s s1 : Adapter)
    (err : error) :
  DeleteOp arReq = false ->
  let namespace :=
    if String.eqb (Namespace arReq) "" then "octarine-dataplane" else Namespace arReq in
  createCpObjects {| world := world s; octarineDataplaneNs := namespace |} =
    (Returns (Some err), s1) ->
  installOctarineUnit YAMLToJSON UnmarshalJSON getOctarineYAMLs createCpObjects
    deleteCpObjects arReq s =
    (Returns {| EventType_of := EventType_ERROR;
                Summary := "Error while deploying Octarine";
                Details := err |}, s1).
Proof.
  intros Hdel namespace Hcp. unfold installOctarineUnit, executeInstall.
  rewrite Hdel. subst namespace.
  destruct (String.eqb (Namespace arReq) ""); cbn [Namespace DeleteOp]; rewrite ?Hdel;
    unfold_workflow; rewrite Hcp; reflexivity.
Qed.

End OctarineUnit.

(** ** Requests *)

Section Requests.

Context {Store : Type} `{DynamicInterface Store}.
Variable YAMLToJSON : string -> string + error.
Variable UnmarshalJSON : string -> Unstructured + error.
Variable supportedOps : gmap string supportedOperation.
Variable customOpCommand : string.
Variable installOctarineCommand : string.
Variable installBookInfoCommand : string.
Variable runVet : string.
Variable Template : Type.
Variable path_Join : list string -> string.
Variable template_ParseFiles : string -> Template + error.
Variable template_Execute : Template -> gmap string string -> string * option error.

(** X25.  Requests that [ApplyOperation] refuses: a nil request, a name that
    is not in [supportedOps], and the custom operation with an empty
    body (whether or not it is in the table).  Each is answered with an
    error, with no goroutine started and the client untouched. *)
Theorem ApplyOperation_rejects :
  (forall s : @Adapter Store,
     ApplyOperation YAMLToJSON UnmarshalJSON supportedOps customOpCommand
       installOctarineCommand installBookInfoCommand runVet Template path_Join
       template_ParseFiles template_Execute None s =
     (Returns (inr "mesh client has not been created", []), s)) /\
  (forall (arReq : ApplyRuleRequest) (s : @Adapter Store),
     supportedOps !! OpName arReq = None ->
     ApplyOperation YAMLToJSON UnmarshalJSON supportedOps customOpCommand
       installOctarineCommand installBookInfoCommand runVet Template path_Join
       template_ParseFiles template_Execute (Some arReq) s =
     (Returns (inr ("error: " +:+ OpName arReq +:+ " is not a valid operation name"), []),
      s)) /\
  (forall (arReq : ApplyRuleRequest) (s : @Adapter Store),
     OpName arReq = customOpCommand ->
     CustomBody arReq = "" ->
     exists message,
       ApplyOperation YAMLToJSON UnmarshalJSON supportedOps customOpCommand
         installOctarineCommand installBookInfoCommand runVet Template path_Join
         template_ParseFiles template_Execute (Some arReq) s =
       (Returns (inr message, []), s) /\
       (supportedOps !! OpName arReq <> None ->
        message = "error: yaml body is empty for " +:+ OpName arReq +:+ " operation")).
Proof.
  split; [reflexivity|]. split.
  - intros arReq s Hop. unfold ApplyOperation. now rewrite Hop.
  - intros arReq s Hname Hbody. unfold ApplyOperation.
    destruct (supportedOps !! OpName arReq) as [op|].
    + rewrite Hname, Hbody, String.eqb_refl. cbn [andb String.eqb].
      eexists. split; reflexivity.
    + eexists. split; [reflexivity | congruence].
Qed.

(** X26.  The three operations that run in the background are answered at
    once: the response is a success, one goroutine has been started for
    the request, and the client is as it was, with no call made yet. *)
Theorem ApplyOperation_answers_before_running (arReq : ApplyRuleRequest)
    (op : supportedOperation) (s : @Adapter Store) :
  supportedOps !! OpName arReq = Some op ->
  OpName arReq <> customOpCommand ->
  (OpName arReq = installOctarineCommand ->
   ApplyOperation YAMLToJSON UnmarshalJSON supportedOps customOpCommand
     installOctarineCommand installBookInfoCommand runVet Template path_Join
     template_ParseFiles template_Execute (Some arReq) s =
   (Returns (inl tt, [GoInstallOctarine arReq]), s)) /\
  (OpName arReq <> installOctarineCommand ->
   OpName arReq = installBookInfoCommand ->
   ApplyOperation YAMLToJSON UnmarshalJSON supportedOps customOpCommand
     installOctarineCommand installBookInfoCommand runVet Template path_Join
     template_ParseFiles template_Execute (Some arReq) s =
   (Returns (inl tt, [GoInstallBookInfo arReq]), s)) /\
  (OpName arReq <> installOctarineCommand ->
   OpName arReq <> installBookInfoCommand ->
   OpName arReq = runVet ->
   ApplyOperation YAMLToJSON UnmarshalJSON supportedOps customOpCommand
     installOctarineCommand installBookInfoCommand runVet Template path_Join
     template_ParseFiles template_Execute (Some arReq) s =
   (Returns (inl tt, [GoRunVet]), s)).
Proof.
  intros Hop Hcustom. unfold ApplyOperation. rewrite Hop.
  apply String.eqb_neq in Hcustom. rewrite Hcustom. cbn [andb].
  repeat split.
  - intros Heq. apply String.eqb_eq in Heq. now rewrite Heq.
  - intros Hn Heq. apply String.eqb_neq in Hn. apply String.eqb_eq in Heq.
    now rewrite Hn, Heq.
  - intros Hn1 Hn2 Heq. apply String.eqb_neq in Hn1, Hn2. apply String.eqb_eq in Heq.
    now rewrite Hn1, Hn2, Heq.
Qed.

(** X27.  [ApplyOperation] never does both: a request that starts a goroutine
    is answered with a success and leaves the client as it was, and a
    request that is answered with an error or that reaches the cluster
    starts none.  The field [octarineDataplaneNs] is never written by
    [ApplyOperation] itself. *)
Theorem ApplyOperation_spawns_or_applies (arReq : option ApplyRuleRequest)
    (s s' : @Adapter Store) (r : unit + error) (spawned : list Spawned) :
  ApplyOperation YAMLToJSON UnmarshalJSON supportedOps customOpCommand
    installOctarineCommand installBookInfoCommand runVet Template path_Join
    template_ParseFiles template_Execute arReq s = (Returns (r, spawned), s') ->
  octarineDataplaneNs s' = octarineDataplaneNs s /\
  (spawned = [] \/ (exists g, spawned = [g]) /\ r = inl tt /\ s' = s).
Proof.
  unfold ApplyOperation, applyAndRespond. unfold_workflow.
  destruct arReq as [arReq|]; [|intros Hr; inversion Hr; subst; auto].
  destruct (supportedOps !! OpName arReq) as [op|];
    [|intros Hr; inversion Hr; subst; auto].
  repeat match goal with
         | |- context [if ?b then _ else _] => destruct b
         end;
    try (intros Hr; inversion Hr; subst; split; [reflexivity|]; eauto; fail).
  all: try (destruct (template_ParseFiles _) as [tmpl|e];
            [destruct (template_Execute tmpl _) as [text [e|]]|]).
  all: try (intros Hr; inversion Hr; subst; split; [reflexivity|]; eauto; fail).
  all: match goal with
       | |- context [applyConfigChange ?y ?u ?p ?n ?d ?w] =>
           destruct (applyConfigChange y u p n d w) as [[[e'|]|msg] w']
       end;
       intros Hr; inversion Hr; subst; split; auto.
Qed.

End Requests.

(** ** Creating the client *)

Section Connecting.

Context {Store : Type}.
Variable KubeconfigBody : Type.
Variable RestBody : Type.
Variable Clientset : Type.
Variable clientcmd_Load : string -> ClientcmdConfig KubeconfigBody + error.
Variable ClientConfig : ClientcmdConfig KubeconfigBody -> RestConfig RestBody + error.
Variable InClusterConfig : RestConfig RestBody + error.
Variable dynamic_NewForConfig : RestConfig RestBody -> Store + error.
Variable kubernetes_NewForConfig : RestConfig RestBody -> Clientset + error.

(** X28.  What a client that [newClient] has built is made of.  Both clients
    come from one configuration, whose rate limits are 100 queries per
    second with a burst of 200 whatever the kubeconfig says.  With an
    empty kubeconfig that configuration is the in-cluster one and the
    context name is not looked at; otherwise it is that of the loaded
    kubeconfig, whose current context is replaced by the context name
    only when the name is not empty. *)
Theorem newClient_built (kubeconfig contextName : string)
    (client : NewClient RestBody Clientset) :
  newClient KubeconfigBody RestBody Clientset clientcmd_Load ClientConfig InClusterConfig
    dynamic_NewForConfig kubernetes_NewForConfig kubeconfig contextName = inl client ->
  QPS _ (newConfig _ _ client) = 100%Z /\
  Burst _ (newConfig _ _ client) = 200%Z /\
  dynamic_NewForConfig (newConfig _ _ client) = inl (newDynamicClient _ _ client) /\
  kubernetes_NewForConfig (newConfig _ _ client) = inl (newClientset _ _ client) /\
  (kubeconfig = "" ->
   exists base, InClusterConfig = inl base /\
                restBody _ (newConfig _ _ client) = restBody _ base) /\
  (kubeconfig <> "" ->
   exists ccfg base,
     clientcmd_Load kubeconfig = inl ccfg /\
     ClientConfig {| CurrentContext :=
                       if String.eqb contextName "" then CurrentContext _ ccfg
                       else contextName;
                     kubeconfigBody := kubeconfigBody _ ccfg |} = inl base /\
     restBody _ (newConfig _ _ client) = restBody _ base).
Proof.
  unfold newClient, configClient.
  destruct kubeconfig as [|c kubeconfig]; cbn [String.length Nat.ltb Nat.leb].
  - destruct InClusterConfig as [base|e]; [|discriminate].
    destruct (dynamic_NewForConfig _) as [dyn|e] eqn:Ed; [|discriminate].
    destruct (kubernetes_NewForConfig _) as [cs|e] eqn:Ek; [|discriminate].
    intros Hc. injection Hc as <-. cbn. repeat split; try assumption.
    + intros _. now exists base.
    + congruence.
  - destruct (clientcmd_Load _) as [ccfg|e]; [|discriminate].
    destruct (ClientConfig _) as [base|e] eqn:Eb; [|discriminate].
    destruct (dynamic_NewForConfig _) as [dyn|e] eqn:Ed; [|discriminate].
    destruct (kubernetes_NewForConfig _) as [cs|e] eqn:Ek; [|discriminate].
    intros Hc. injection Hc as <-. cbn. repeat split; try assumption.
    + discriminate.
    + intros _. exists ccfg, base. repeat split.
      rewrite <- Eb. destruct (String.eqb contextName ""); [|reflexivity].
      now destruct ccfg.
Qed.

(** X29.  [CreateMeshInstance] always returns.  When no client can be built it
    returns the error, wrapped once, and the client is as it was: one
    that had been created stays in use.  When a client is built, it takes
    the place of the old one and the event channel is a new, empty one:
    events that were waiting in the old channel are not in it.  No call
    is made on the cluster either way. *)
Theorem CreateMeshInstance_outcome (k8sReq : option CreateMeshInstanceRequest)
    (w : @World Store) :
  let kubeconfig := match k8sReq with Some req => K8SConfig req | None => "" end in
  let contextName := match k8sReq with Some req => ContextName req | None => "" end in
  exists r w',
    CreateMeshInstance KubeconfigBody RestBody Clientset clientcmd_Load ClientConfig
      InClusterConfig dynamic_NewForConfig kubernetes_NewForConfig k8sReq w =
      (Returns r, w') /\
    calls w' = calls w /\
    match newClient KubeconfigBody RestBody Clientset clientcmd_Load ClientConfig
            InClusterConfig dynamic_NewForConfig kubernetes_NewForConfig
            kubeconfig contextName with
    | inr err => r = inr (Wrapf err "unable to create a new Octarine client") /\ w' = w
    | inl client =>
        r = inl tt /\
        k8sDynamicClient (oClient w') = Some (newDynamicClient _ _ client) /\
        eventChan (oClient w') = []
    end.
Proof.
  intros kubeconfig contextName. unfold CreateMeshInstance.
  subst kubeconfig contextName. destruct k8sReq as [req|];
    destruct (newClient _ _ _ _ _ _ _ _ _ _) as [client|err];
    do 2 eexists; (split; [reflexivity|]); cbn; auto.
Qed.

End Connecting.


(** ** The further properties at concrete inputs *)

Section FurtherInstances.

Lemma getResource_fallback_witness :
  let w := scriptedWorld [inr "pods web not found"; inl podDoc] in
  k8sDynamicClient (oClient w) <> None /\
  exists out w', getResource (computedResource podDoc) podDoc w = (Returns out, w').
Proof.
  intros w. split; [discriminate|].
  destruct (getResource_fallback (computedResource podDoc) podDoc w)
    as (out & w' & tr & Hrun & _); [discriminate|].
  now exists out, w'.
Defined.

Lemma updateResource_fallback_witness :
  let w := scriptedWorld [inr "the object has been modified"; inl podDoc] in
  k8sDynamicClient (oClient w) <> None /\
  exists out w', updateResource (computedResource podDoc) podDoc w = (Returns out, w').
Proof.
  intros w. split; [discriminate|].
  destruct (updateResource_fallback (computedResource podDoc) podDoc w)
    as (out & w' & tr & Hrun & _); [discriminate|].
  now exists out, w'.
Defined.

Lemma createResource_fallback_witness :
  let w := scriptedWorld [inr "namespaces demo not found"; inl podDoc] in
  k8sDynamicClient (oClient w) <> None /\
  exists out w', createResource (computedResource podDoc) podDoc w = (Returns out, w').
Proof.
  intros w. split; [discriminate|].
  destruct (createResource_fallback (computedResource podDoc) podDoc w)
    as (out & w' & tr & Hrun & _); [discriminate|].
  now exists out, w'.
Defined.

Lemma deleteResource_plain_witness :
  let w := scriptedWorld [inr "pods web not found"; inl podDoc] in
  let res := computedResource podDoc in
  (k8sDynamicClient (oClient w) <> None /\ Resource res <> "deployments" /\
   (Resource res <> "namespaces" \/ GetName podDoc <> "default")) /\
  exists out w', deleteResource res podDoc w = (Returns out, w').
Proof.
  intros w res.
  assert (H1 : k8sDynamicClient (oClient w) <> None) by discriminate.
  assert (H2 : Resource res <> "deployments") by discriminate.
  assert (H3 : Resource res <> "namespaces" \/ GetName podDoc <> "default")
    by (left; discriminate).
  split; [now repeat split|].
  destruct (deleteResource_plain res podDoc w H1 H2 H3) as (out & w' & tr & Hrun & _).
  now exists out, w'.
Defined.

Lemma executeManifest_error_wraps_last_call_witness :
  let w := scriptedWorld [inr "pods web not found"; inr "pods web not found"] in
  let err := Wrapf "pods web not found" "unable to delete the requested resource" in
  (k8sDynamicClient (oClient w) <> None /\
   fst (executeManifest podDoc "" true w) = Returns (Some err)) /\
  exists tr c e message,
    calls (snd (executeManifest podDoc "" true w)) = calls w ++ tr ++ [c] /\
    failure c = Some e /\ err = Wrapf e message.
Proof.
  intros w err. split; [split; [discriminate | reflexivity]|].
  destruct (executeManifest_error_wraps_last_call podDoc "" true err w
              (snd (executeManifest podDoc "" true w)))
    as (tr & c & e & message & Hlog & Hfail & Herr & _);
    [discriminate | reflexivity |].
  now exists tr, c, e, message.
Defined.

Lemma executeManifest_panics_only_in_scale_down_witness :
  let w := scriptedWorld [inl podDoc] in
  (k8sDynamicClient (oClient w) <> None /\
   exists msg, fst (executeManifest deploymentDoc "" true w) = Panics msg) /\
  Resource (computedResource (withNamespace "" deploymentDoc)) = "deployments".
Proof.
  intros w. split; [split; [discriminate | eexists; reflexivity]|].
  eapply (executeManifest_panics_only_in_scale_down deploymentDoc "" true _ w
            (snd (executeManifest deploymentDoc "" true w)));
    [discriminate | reflexivity].
Defined.

Lemma applyConfigChange_blank_payload_witness :
  let w := scriptedWorld [] in
  existsb nonBlank (Split "  ---  " "---") = false /\
  applyConfigChange yamlAsIs (decodeTo podDoc) "  ---  " "demo" false w = (Returns None, w).
Proof.
  intros w. split; [reflexivity|].
  apply applyConfigChange_blank_payload. reflexivity.
Defined.

Lemma applyConfigChange_without_client_witness :
  let w := {| oClient := {| k8sDynamicClient := @None Script; eventChan := [] |};
              calls := [] |} in
  (k8sDynamicClient (oClient w) = None /\
   existsb nonBlank (Split "kind: Pod" "---") = true) /\
  applyConfigChange yamlAsIs (decodeTo podDoc) "kind: Pod" "demo" true w =
    (Returns (Some "mesh client has not been created"), w).
Proof.
  intros w. split; [split; reflexivity|].
  apply applyConfigChange_without_client; reflexivity.
Defined.

Lemma applyManifestPayload_decode_error_witness :
  let w := scriptedWorld [] in
  let broken := fun _ : string => @inr Unstructured error "unexpected end of JSON input" in
  (k8sDynamicClient (oClient w) <> None /\ yamlAsIs "kind: Pod" = inl "kind: Pod" /\
   (5 < String.length "kind: Pod")%nat /\
   broken "kind: Pod" = inr "unexpected end of JSON input") /\
  applyManifestPayload yamlAsIs broken "demo" "kind: Pod" false w =
    (Returns (Some (Wrapf "unexpected end of JSON input"
                      "unable to unmarshal json created from yaml")), w).
Proof.
  intros w broken.
  assert (Hc : k8sDynamicClient (oClient w) <> None) by discriminate.
  assert (Hlen : (5 < String.length "kind: Pod")%nat) by (cbv; lia).
  split; [now repeat split|].
  exact (proj2 (applyManifestPayload_decode_error yamlAsIs broken "demo" "kind: Pod" false
                  w Hc) "kind: Pod" _ eq_refl Hlen eq_refl).
Defined.

Lemma applyConfigChange_delete_hides_not_found_witness :
  let w := scriptedWorld [inr "pods web is forbidden"; inr "pods web is forbidden"] in
  let err := Wrapf "pods web is forbidden" "unable to delete the requested resource" in
  fst (applyConfigChange yamlAsIs (decodeTo podDoc) "kind: Pod" "" true w) =
    Returns (Some err) /\
  notFoundError err = false.
Proof.
  intros w err. split; [reflexivity|].
  eapply (applyConfigChange_delete_hides_not_found yamlAsIs (decodeTo podDoc)
            "kind: Pod" "" err w
            (snd (applyConfigChange yamlAsIs (decodeTo podDoc) "kind: Pod" "" true w))).
  reflexivity.
Defined.

Lemma list_stops_at_failed_item_witness :
  let pods := {| Object := <["kind" := VString "List"]>
                           (<["items" := VList [VMap (Object podDoc);
                                                VMap (Object deploymentDoc)]]> ∅) |} in
  let w := scriptedWorld [inr "pods web not found"; inr "pods web not found"] in
  let err := Wrapf "pods web not found" "unable to delete the requested resource" in
  let w2 := snd (executeManifest {| Object := Object podDoc |} "" true w) in
  applyManifestPayload yamlAsIs (decodeTo pods) "" "kind: List" true w =
    (Returns (Some err), w2) /\
  applyEach yamlAsIs (decodeTo pods) ["kind: List"] "" true w = (Returns None, w2).
Proof.
  intros pods w err w2.
  destruct (list_stops_at_failed_item yamlAsIs (decodeTo pods) "" "kind: List" "kind: List"
              true pods [] [VMap (Object deploymentDoc)] (Object podDoc) err [] w w w2)
    as [Hrun Hloop];
    [discriminate | discriminate | reflexivity | cbv; lia | reflexivity | reflexivity
    | reflexivity | reflexivity |].
  split; [exact Hrun | now apply Hloop].
Defined.

Lemma list_stops_at_non_object_witness :
  let mixed := {| Object := <["kind" := VString "List"]>
                            (<["items" := VList [VString "web"; VMap (Object podDoc)]]> ∅) |} in
  let w := scriptedWorld [] in
  applyManifestPayload yamlAsIs (decodeTo mixed) "" "kind: List" false w =
    (Returns (Some "items member is not an object: map[string]interface {}"), w).
Proof.
  intros mixed w.
  apply (list_stops_at_non_object yamlAsIs (decodeTo mixed) "" "kind: List" "kind: List"
           false mixed [] [VMap (Object podDoc)] (VString "web") w w);
    [discriminate | reflexivity | cbv; lia | reflexivity | reflexivity
    | discriminate | reflexivity].
Defined.

Lemma withNamespace_overrides_witness :
  "prod" <> "" /\ GetNamespace (withNamespace "prod" podDoc) = "prod".
Proof.
  assert (Hns : "prod" <> "") by discriminate.
  split; [exact Hns|].
  apply (proj1 (withNamespace_overrides "prod" podDoc Hns)).
  intros v Hv. vm_compute in Hv. injection Hv as <-. eexists. reflexivity.
Defined.

Lemma computedResource_of_untyped_document_witness :
  Resource (computedResource {| Object := ∅ |}) = "s".
Proof.
  apply (proj1 (computedResource_of_untyped_document {| Object := ∅ |})).
  intros s Hs. discriminate Hs.
Defined.

Lemma StreamEvents_idle_witness :
  let w := {| sClient := {| k8sDynamicClient := @None unit; eventChan := [] |};
              stream := O; senders := []; received := [] |} in
  StreamEvents flakySend 7 w = (None, w).
Proof. intros w. apply StreamEvents_idle. reflexivity. Defined.

Lemma StreamEvents_stops_at_first_failure_witness :
  let Send := fun (event : EventsResponse) (conn : unit) =>
                if String.eqb (Summary event) "second"
                then (Some "transport is closing", conn) else (None, conn) in
  let w := {| sClient := {| k8sDynamicClient := @None unit;
                            eventChan := [sampleEvent "first"; sampleEvent "second";
                                          sampleEvent "third"] |};
              stream := tt; senders := []; received := [] |} in
  exists w2,
    StreamEvents Send 5 w = (Some (Wrapf "transport is closing" "unable to send event"), w2) /\
    eventChan (sClient w2) = [sampleEvent "third"].
Proof.
  intros Send w.
  destruct (StreamEvents_stops_at_first_failure Send w
              (snd (StreamEvents Send 1 w)) [sampleEvent "first"] [sampleEvent "third"]
              (sampleEvent "second") "transport is closing" tt 3)
    as (w2 & Hrun & Hchan & _); [reflexivity | reflexivity | reflexivity |].
  exists w2. split; [exact Hrun | exact Hchan].
Defined.

Lemma labelNamespace_steps_witness :
  let s := scriptedAdapter [inl defaultNamespaceDoc; inl defaultNamespaceDoc;
                            inl podDoc; inl podDoc] in
  k8sDynamicClient (oClient (world s)) <> None /\
  exists out s', labelNamespaceForAutoInjection "demo" s = (Returns out, s').
Proof.
  intros s. split; [discriminate|].
  destruct (labelNamespace_steps "demo" s) as (out & s' & a & b & c & d & Hrun & _);
    [discriminate|].
  now exists out, s'.
Defined.

Lemma injection_payloads_witness :
  GetResourceVersion (SetResourceVersion "" (SetNamespace "demo" podDoc)) = "" /\
  GetNamespace (SetResourceVersion "" (SetNamespace "demo" podDoc)) = "demo".
Proof.
  destruct (injection_payloads "demo" podDoc
              (<["name" := VString "web"]> (<["namespace" := VString "demo"]> ∅)))
    as (_ & _ & _ & Hns & Hrv & _); [reflexivity|].
  split; [exact Hrv | apply Hns; discriminate].
Defined.

Lemma bookInfo_removal_event_witness :
  let arReq := {| OpName := "install_book_info"; Namespace := "demo"; Username := "";
                  CustomBody := ""; DeleteOp := true |} in
  let s := scriptedAdapter [inr "pods web not found"; inr "pods web not found"] in
  let run := installBookInfoUnit yamlAsIs (decodeTo podDoc) sampleBookInfoYAML arReq s in
  exists event,
    fst run = Returns event /\
    (event = {| EventType_of := EventType_INFO;
                Summary := "Book Info app removed successfully";
                Details := "The canonical Book Info app is now removed." |} \/
     (EventType_of event = EventType_ERROR /\
      Summary event = "Error while removing the canonical Book Info App" /\
      notFoundError (Details event) = false)).
Proof.
  intros arReq s run. eexists. split; [reflexivity|].
  eapply (bookInfo_removal_event yamlAsIs (decodeTo podDoc) sampleBookInfoYAML arReq s
            s (snd run)); reflexivity.
Defined.

Lemma bookInfo_deploy_stops_at_labelling_witness :
  let arReq := {| OpName := "install_book_info"; Namespace := "demo"; Username := "";
                  CustomBody := ""; DeleteOp := false |} in
  let s := scriptedAdapter [inr "namespaces demo not found";
                            inr "namespaces demo not found"] in
  exists event s1,
    installBookInfoUnit yamlAsIs (decodeTo podDoc) sampleBookInfoYAML arReq s =
      (Returns event, s1) /\
    EventType_of event = EventType_ERROR.
Proof.
  intros arReq s. do 2 eexists. split.
  - eapply (bookInfo_deploy_stops_at_labelling yamlAsIs (decodeTo podDoc)
              sampleBookInfoYAML arReq s); reflexivity.
  - reflexivity.
Defined.

Lemma octarine_removal_event_witness :
  let arReq := {| OpName := "octarine_install"; Namespace := ""; Username := "";
                  CustomBody := ""; DeleteOp := true |} in
  let s := scriptedAdapter [inr "pods web is forbidden"; inr "pods web is forbidden"] in
  installOctarineUnit yamlAsIs (decodeTo podDoc) sampleOctarineYAMLs
    sampleCpObjects sampleCpObjects arReq s =
    (Returns {| EventType_of := EventType_ERROR;
                Summary := "Error while removing Octarine";
                Details := Wrapf "pods web is forbidden"
                             "unable to delete the requested resource" |},
     snd (installOctarineUnit yamlAsIs (decodeTo podDoc) sampleOctarineYAMLs
            sampleCpObjects sampleCpObjects arReq s)) /\
  octarineDataplaneNs
    (snd (installOctarineUnit yamlAsIs (decodeTo podDoc) sampleOctarineYAMLs
            sampleCpObjects sampleCpObjects arReq s)) = "octarine-dataplane".
Proof.
  intros arReq s. split; [|reflexivity].
  destruct (octarine_removal_event yamlAsIs (decodeTo podDoc) sampleOctarineYAMLs
              sampleCpObjects sampleCpObjects arReq s
              {| world := world s; octarineDataplaneNs := "octarine-dataplane" |}
              "kind: Pod, namespace: octarine-dataplane" eq_refl eq_refl) as [Hchain _].
  edestruct Hchain as [Hev _]; [reflexivity | reflexivity | exact Hev].
Defined.

Lemma octarine_removal_cleans_up_witness :
  let arReq := {| OpName := "octarine_install"; Namespace := ""; Username := "";
                  CustomBody := ""; DeleteOp := true |} in
  let s := scriptedAdapter [] in
  let noManifest := fun _ : string =>
    @opRet Script (string + error) (inr "unable to read the manifest") in
  let failing := @opRet Script (option error) (Some "unable to delete the account") in
  installOctarineUnit yamlAsIs (decodeTo podDoc) noManifest sampleCpObjects failing arReq s =
    (Returns {| EventType_of := EventType_ERROR;
                Summary := "Error while removing Octarine";
                Details := "unable to read the manifest" |},
     {| world := scriptedWorld []; octarineDataplaneNs := "octarine-dataplane" |}).
Proof.
  intros arReq s noManifest failing.
  eapply (octarine_removal_cleans_up yamlAsIs (decodeTo podDoc) noManifest sampleCpObjects
            failing arReq s); reflexivity.
Defined.

Lemma octarine_deploy_stops_at_provisioning_witness :
  let arReq := {| OpName := "octarine_install"; Namespace := "mesh"; Username := "";
                  CustomBody := ""; DeleteOp := false |} in
  let s := scriptedAdapter [] in
  let failing := @opRet Script (option error) (Some "unable to create the account") in
  installOctarineUnit yamlAsIs (decodeTo podDoc) sampleOctarineYAMLs failing sampleCpObjects
    arReq s =
    (Returns {| EventType_of := EventType_ERROR;
                Summary := "Error while deploying Octarine";
                Details := "unable to create the account" |},
     {| world := scriptedWorld []; octarineDataplaneNs := "mesh" |}).
Proof.
  intros arReq s failing.
  eapply (octarine_deploy_stops_at_provisioning yamlAsIs (decodeTo podDoc)
            sampleOctarineYAMLs failing sampleCpObjects arReq s); reflexivity.
Defined.

Lemma ApplyOperation_rejects_witness :
  let arReq := {| OpName := "custom"; Namespace := "demo"; Username := "";
                  CustomBody := ""; DeleteOp := false |} in
  let s := scriptedAdapter [] in
  exists message,
    ApplyOperation yamlAsIs (decodeTo podDoc) sampleOps "custom" "octarine_install"
      "install_book_info" "octarine_vet" string samplePathJoin sampleParseFiles
      sampleExecute (Some arReq) s = (Returns (inr message, []), s).
Proof.
  intros arReq s.
  destruct (proj2 (proj2 (ApplyOperation_rejects yamlAsIs (decodeTo podDoc) sampleOps
                            "custom" "octarine_install" "install_book_info" "octarine_vet"
                            string samplePathJoin sampleParseFiles sampleExecute))
              arReq s eq_refl eq_refl) as (message & Hrun & _).
  now exists message.
Defined.

Lemma ApplyOperation_answers_before_running_witness :
  let arReq := {| OpName := "octarine_install"; Namespace := ""; Username := "";
                  CustomBody := ""; DeleteOp := false |} in
  let s := scriptedAdapter [] in
  ApplyOperation yamlAsIs (decodeTo podDoc) sampleOps "custom" "octarine_install"
    "install_book_info" "octarine_vet" string samplePathJoin sampleParseFiles
    sampleExecute (Some arReq) s = (Returns (inl tt, [GoInstallOctarine arReq]), s).
Proof.
  intros arReq s.
  apply (proj1 (ApplyOperation_answers_before_running yamlAsIs (decodeTo podDoc) sampleOps
                  "custom" "octarine_install" "install_book_info" "octarine_vet"
                  string samplePathJoin sampleParseFiles sampleExecute arReq
                  {| name := "Install Octarine"; templateName := "" |} s
                  eq_refl ltac:(discriminate))).
  reflexivity.
Defined.

Lemma ApplyOperation_spawns_or_applies_witness :
  let arReq := {| OpName := "custom"; Namespace := ""; Username := "";
                  CustomBody := "kind: Pod"; DeleteOp := false |} in
  let s := scriptedAdapter [inl podDoc] in
  let run := ApplyOperation yamlAsIs (decodeTo podDoc) sampleOps "custom"
               "octarine_install" "install_book_info" "octarine_vet" string
               samplePathJoin sampleParseFiles sampleExecute (Some arReq) s in
  fst run = Returns (inl tt, []) /\
  octarineDataplaneNs (snd run) = octarineDataplaneNs s.
Proof.
  intros arReq s run. split; [reflexivity|].
  apply (ApplyOperation_spawns_or_applies yamlAsIs (decodeTo podDoc) sampleOps "custom"
           "octarine_install" "install_book_info" "octarine_vet" string samplePathJoin
           sampleParseFiles sampleExecute (Some arReq) s (snd run) (inl tt) []).
  reflexivity.
Defined.

Lemma newClient_built_witness :
  exists client,
    newClient string string unit sampleLoad sampleClientConfig sampleInCluster
      sampleDynamic sampleClientset "apiVersion: v1" "staging" = inl client /\
    QPS _ (newConfig _ _ client) = 100%Z /\
    restBody _ (newConfig _ _ client) = "staging".
Proof.
  eexists. split; [reflexivity|].
  destruct (newClient_built string string unit sampleLoad sampleClientConfig
              sampleInCluster sampleDynamic sampleClientset "apiVersion: v1" "staging"
              _ eq_refl) as (Hq & _).
  split; [exact Hq | reflexivity].
Defined.

End FurtherInstances.
